(** * Console front end: profile service client, application feature
    configuration and e-mail template list page

    A shallow embedding of three TypeScript units:
    - the profile service client ([getGravatarImage], [getProfileInfo],
      [updateProfileInfo], [getProfileSchemas], [switchAccount]);
    - the [editApplication] override hooks of [applicationConfig];
    - the pagination logic of the [EmailTemplates] page component.

    Promises are modelled by their settled outcome, the HTTP layer by an
    oracle from request descriptors to outcomes, and every call to the
    outside world is written to a trace of events. *)

From stdpp Require Import gmap strings list fin_maps pretty.
From Stdlib Require Import ZArith Lia Ascii.

Set Warnings "-register-all".

Local Open Scope string_scope.
Local Open Scope Z_scope.
Local Open Scope list_scope.

(** ** JavaScript values *)

(** The values that travel in response bodies and error objects.  Numbers
    are the integers (status codes, sizes); objects are finite maps from
    property names to values. *)
Inductive JsValue : Type :=
  | JUndefined
  | JNull
  | JBool (b : bool)
  | JNum (n : Z)
  | JStr (s : string)
  | JArr (xs : list JsValue)
  | JObj (o : gmap string JsValue).

Module Js.

(** [ToBoolean]: what [if (v)], [!v], [v && w], [v || w] and [v ? a : b]
    test. *)
Definition truthy (v : JsValue) : bool :=
  match v with
  | JUndefined | JNull => false
  | JBool b => b
  | JNum n => negb (Z.eqb n 0)
  | JStr s => negb (String.eqb s "")
  | JArr _ | JObj _ => true
  end.

(** [a || b] *)
Definition or (a b : JsValue) : JsValue := if truthy a then a else b.

(** [_.isEmpty] of lodash: collections are empty when they hold nothing,
    every other value (numbers, booleans, null, undefined) is empty. *)
Definition isEmpty (v : JsValue) : bool :=
  match v with
  | JStr s => String.eqb s ""
  | JArr xs => match xs with [] => true | _ => false end
  | JObj o => match map_to_list o with [] => true | _ => false end
  | _ => true
  end.

(** [typeof v === "string"] *)
Definition isString (v : JsValue) : bool :=
  match v with JStr _ => true | _ => false end.

(** Property read [v.k] for a property name that is not an array index
    and not [length]: [None] is the [TypeError] raised on [undefined] and
    [null]; primitives and arrays carry no such property. *)
Definition get (v : JsValue) (k : string) : option JsValue :=
  match v with
  | JUndefined | JNull => None
  | JObj o => Some (default JUndefined (o !! k))
  | _ => Some JUndefined
  end.

(** Indexed read [v[0]]. *)
Definition first (v : JsValue) : option JsValue :=
  match v with
  | JUndefined | JNull => None
  | JArr xs => Some (default JUndefined (head xs))
  | JStr s =>
      Some (match s with
            | EmptyString => JUndefined
            | String c _ => JStr (String c EmptyString)
            end)
  | JObj o => Some (default JUndefined (o !! "0"))
  | _ => Some JUndefined
  end.

(** [v === "lit"] against a string literal. *)
Definition strictEqStr (v : JsValue) (lit : string) : bool :=
  match v with JStr s => String.eqb s lit | _ => false end.

End Js.

(** ** The HTTP layer *)

Inductive HttpMethods : Type := GET | PATCH.

Inductive AcceptHeaderValues : Type := ACCEPT_APP_JSON.

Inductive ContentTypeHeaderValues : Type := CONTENT_APP_JSON | CONTENT_APP_SCIM.

(** A request descriptor, as handed to [httpClient] and [axios.request]. *)
Record RequestConfig : Type := mkRequestConfig {
  rc_data : option JsValue;
  rc_headers : option (list (string * string));
  rc_method : HttpMethods;
  rc_url : string
}.

Record AxiosResponse : Type := mkAxiosResponse {
  resp_status : Z;
  resp_data : JsValue;
  resp_request : JsValue;
  resp_config : JsValue
}.

(** Modelled from the spec: the class [ProfileConstants] is declared outside
    the files at hand.  Its error messages are fixed, pairwise different
    constants; each is represented by its name. *)
Inductive ProfileConstants : Type :=
  | GRAVATAR_IMAGE_FETCH_REQUEST_ERROR
  | PROFILE_INFO_FETCH_REQUEST_INVALID_RESPONSE_CODE_ERROR
  | PROFILE_INFO_FETCH_REQUEST_ERROR
  | PROFILE_INFO_UPDATE_REQUEST_INVALID_RESPONSE_CODE_ERROR
  | PROFILE_INFO_UPDATE_REQUEST_ERROR
  | SCHEMA_FETCH_REQUEST_INVALID_RESPONSE_CODE_ERROR
  | SCHEMA_FETCH_REQUEST_ERROR
  | ACCOUNT_SWITCH_REQUEST_ERROR.

(** The diagnostic context of an error object: what [error.stack],
    [error.code], [error.request], [error.response] and [error.config]
    read.  An absent response is [None] ([undefined]). *)
Record Diagnostics : Type := mkDiagnostics {
  d_stack : JsValue;
  d_code : JsValue;
  d_request : JsValue;
  d_response : option AxiosResponse;
  d_config : JsValue
}.

(** Modelled from the spec: the class [IdentityAppsApiException] is declared
    outside the files at hand.  Its constructor takes the error constant and
    the five diagnostic values, in this order; the exception keeps them under
    the property names by which the [catch] handlers read an error back
    ([stack], [code], [request], [response], [config]). *)
Record IdentityAppsApiException : Type := mkIdentityAppsApiException {
  ex_message : ProfileConstants;
  ex_context : Diagnostics
}.

(** What can be thrown, or reject a promise, in the client module. *)
Inductive Thrown : Type :=
  | AxiosError (d : Diagnostics)
      (** the rejection reason of the HTTP layer *)
  | TypeError (stack : string)
      (** raised by the engine on a property read of [undefined] or [null] *)
  | ApiException (x : IdentityAppsApiException).

Definition diagnostics (error : Thrown) : Diagnostics :=
  match error with
  | AxiosError d => d
  | TypeError st => mkDiagnostics (JStr st) JUndefined JUndefined None JUndefined
  | ApiException x => ex_context x
  end.

(** [new IdentityAppsApiException(message, stack, code, request, response,
    config)] *)
Definition newException (message : ProfileConstants) (stack code request : JsValue)
    (response : option AxiosResponse) (config : JsValue) : Thrown :=
  ApiException (mkIdentityAppsApiException message
                  (mkDiagnostics stack code request response config)).

(** The way every [catch] handler of the module wraps the error it caught. *)
Definition wrap (message : ProfileConstants) (error : Thrown) : Thrown :=
  let d := diagnostics error in
  newException message (d_stack d) (d_code d) (d_request d) (d_response d) (d_config d).

(** ** Promises and the trace of outside calls *)

Inductive Settled (A : Type) : Type :=
  | Resolved (a : A)
  | Rejected (e : Thrown).
Arguments Resolved {A} a.
Arguments Rejected {A} e.

(** The argument of [auth.customGrant]. *)
Record CustomGrantConfig : Type := mkCustomGrantConfig {
  attachToken : bool;
  grant_data : gmap string string;
  returnResponse : bool;
  returnsSession : bool;
  signInRequired : bool
}.

Inductive Event : Type :=
  | HttpClientCall (rc : RequestConfig)
  | AxiosCall (rc : RequestConfig)
  | CustomGrantCall (cfg : CustomGrantConfig)
  | SCIMDisabledCall.

(** A promise that has run to its end: the outside calls made on the way, in
    order, and the outcome. *)
Definition Promise (A : Type) : Type := (list Event * Settled A)%type.

Module P.

Definition resolve {A} (a : A) : Promise A := ([], Resolved a).

Definition throw {A} (e : Thrown) : Promise A := ([], Rejected e).

Definition emit (ev : Event) : Promise unit := ([ev], Resolved tt).

(** [p.then(f)] *)
Definition then_ {A B} (p : Promise A) (f : A → Promise B) : Promise B :=
  match p with
  | (t, Resolved a) => let '(t', r) := f a in (t ++ t', r)
  | (t, Rejected e) => (t, Rejected e)
  end.

(** [p.catch(g)], also [try { await p } catch (error) { g }] *)
Definition catch_ {A} (p : Promise A) (g : Thrown → Promise A) : Promise A :=
  match p with
  | (t, Resolved a) => (t, Resolved a)
  | (t, Rejected e) => let '(t', r) := g e in (t ++ t', r)
  end.

Definition trace {A} (p : Promise A) : list Event := p.1.

Definition outcome {A} (p : Promise A) : Settled A := p.2.

End P.

Notation "'let*' x ':=' p 'in' k" := (P.then_ p (fun x => k))
  (at level 10, x name, p at level 100, k at level 200).

(** ** Profile service client *)

Record Endpoints : Type := mkEndpoints {
  me : string;
  profileSchemas : string
}.

(** The helpers and configuration the client module imports; none of them is
    part of the files at hand, so the client is stated over any of them.
    [buildGravatarURL] returns a URL, as its signature declares, and takes the
    fallback already defaulted; the address is a value, since
    [getProfileInfo] passes on what it finds in the response.
    [typeErrorStack] is the stack text the engine gives a [TypeError]. *)
Record Runtime : Type := mkRuntime {
  clientHost : string;
  serverHost : string;
  HTTPRequestHeaders :
    string → option AcceptHeaderValues → option ContentTypeHeaderValues →
    list (string * string);
  CommonServiceResourcesEndpoints : string → Endpoints;
  buildGravatarURL : JsValue → option Z → option string → string → string;
  typeErrorStack : string
}.

(** How the outside world answers: the settled outcome of each call. *)
Record Network : Type := mkNetwork {
  httpClient : RequestConfig → Settled AxiosResponse;
  axios_request : RequestConfig → Settled AxiosResponse;
  customGrant : CustomGrantConfig → Settled JsValue
}.

Record GravatarConfig : Type := mkGravatarConfig {
  defaultImage : option string;
  fallback : option string;
  size : option Z
}.

Record LinkedAccountInterface : Type := mkLinkedAccount {
  tenantDomain : string;
  username : string;
  userStoreDomain : string
}.

Definition orgKey : string :=
  "urn:ietf:params:scim:schemas:extension:enterprise:2.0:User".

(** The own enumerable properties an object spread [...v] copies. *)
Definition ownProps (v : JsValue) : gmap string JsValue :=
  match v with
  | JObj o => o
  | JArr xs => list_to_map (imap (fun i x => (pretty i, x)) xs)
  | JStr s =>
      list_to_map
        (imap (fun i c => (pretty i, JStr (String c EmptyString)))
              (String.list_ascii_of_string s))
  | _ => ∅
  end.

Section Client.

Variable rt : Runtime.
Variable net : Network.

(** Evaluation of an expression that may raise a [TypeError]. *)
Definition eval {A} (o : option A) : Promise A :=
  match o with
  | Some a => P.resolve a
  | None => P.throw (TypeError (typeErrorStack rt))
  end.

Definition call_httpClient (rc : RequestConfig) : Promise AxiosResponse :=
  ([HttpClientCall rc], httpClient net rc).

Definition call_axios (rc : RequestConfig) : Promise AxiosResponse :=
  ([AxiosCall rc], axios_request net rc).

Definition call_customGrant (cfg : CustomGrantConfig) : Promise JsValue :=
  ([CustomGrantCall cfg], customGrant net cfg).

(** *** [getGravatarImage] *)

Definition gravatarRequest (email : JsValue) (size : option Z)
    (defaultImage : option string) (fallback : option string) : RequestConfig :=
  {| rc_data := None;
     rc_headers := None;
     rc_method := GET;
     rc_url := buildGravatarURL rt email size defaultImage (default "404" fallback) |}.

Definition getGravatarImage (email : JsValue) (size : option Z)
    (defaultImage : option string) (fallback : option string) : Promise string :=
  let requestConfig := gravatarRequest email size defaultImage fallback in
  P.catch_
    (let* _ := call_axios requestConfig in
     P.resolve (rc_url requestConfig))
    (fun error => P.throw (wrap GRAVATAR_IMAGE_FETCH_REQUEST_ERROR error)).

(** *** [getProfileInfo] *)

Definition meRequest : RequestConfig :=
  {| rc_data := None;
     rc_headers :=
       Some (HTTPRequestHeaders rt (clientHost rt) (Some ACCEPT_APP_JSON)
               (Some CONTENT_APP_SCIM));
     rc_method := GET;
     rc_url := me (CommonServiceResourcesEndpoints rt (serverHost rt)) |}.

(** The exception the response handlers build for a status other than 200:
    no stack, the status as code, then the response's request, the response
    and its config. *)
Definition invalidResponse (message : ProfileConstants)
    (response : AxiosResponse) : Thrown :=
  newException message JNull (JNum (resp_status response))
    (resp_request response) (Some response) (resp_config response).

(** [typeof data.emails[0] === "string" ? data.emails[0] :
    data.emails[0].value] *)
Definition gravatarAddress (data : JsValue) : option JsValue :=
  emails ← Js.get data "emails";
  e0 ← Js.first emails;
  if Js.isString e0 then Some e0 else Js.get e0 "value".

(** The [try { gravatar = await getGravatarImage(...) } catch (error)
    { gravatar = "" }] block. *)
Definition gravatarFallback (data : JsValue)
    (gravatarConfig : option GravatarConfig) : Promise string :=
  P.catch_
    (let* email := eval (gravatarAddress data) in
     getGravatarImage email (gravatarConfig ≫= size)
       (gravatarConfig ≫= defaultImage) (gravatarConfig ≫= fallback))
    (fun _ => P.resolve "").

Definition defaultName : JsValue :=
  JObj (<["familyName" := JStr ""]> (<["givenName" := JStr ""]> ∅)).

(** The object literal [profileResponse], its nine explicit members and then
    the spread of the response body over them. *)
Definition profileResponse (response : AxiosResponse) (gravatar : string)
    : option (gmap string JsValue) :=
  let data := resp_data response in
  profileUrl ← Js.get data "profileUrl";
  let profileImage := if Js.truthy profileUrl then profileUrl else JStr gravatar in
  emails ← Js.get data "emails";
  name ← Js.get data "name";
  org ← Js.get data orgKey;
  organisation ← (if Js.truthy org then Js.get org "organization" else Some (JStr ""));
  phoneNumbers ← Js.get data "phoneNumbers";
  roles ← Js.get data "roles";
  userImage ← Js.get data "userImage";
  userName ← Js.get data "userName";
  Some (ownProps data ∪
        (<["emails" := Js.or emails (JStr "")]>
        (<["name" := Js.or name defaultName]>
        (<["organisation" := organisation]>
        (<["phoneNumbers" := Js.or phoneNumbers (JArr [])]>
        (<["profileUrl" := Js.or profileUrl (JStr "")]>
        (<["responseStatus" := Js.or (JNum (resp_status response)) JNull]>
        (<["roles" := Js.or roles (JArr [])]>
        (<["userImage" := Js.or userImage profileImage]>
        (<["userName" := Js.or userName (JStr "")]> ∅)))))))))).

(** [_.isEmpty(data.userImage) && !data.profileUrl] *)
Definition needsGravatar (data : JsValue) : option bool :=
  userImage ← Js.get data "userImage";
  if Js.isEmpty userImage
  then profileUrl ← Js.get data "profileUrl"; Some (negb (Js.truthy profileUrl))
  else Some false.

Definition getProfileInfo_then (gravatarConfig : option GravatarConfig)
    (response : AxiosResponse) : Promise (gmap string JsValue) :=
  if negb (resp_status response =? 200)
  then P.throw (invalidResponse
                  PROFILE_INFO_FETCH_REQUEST_INVALID_RESPONSE_CODE_ERROR response)
  else
    let* fetch := eval (needsGravatar (resp_data response)) in
    let* gravatar :=
      (if fetch : bool
       then gravatarFallback (resp_data response) gravatarConfig
       else P.resolve "") in
    eval (profileResponse response gravatar).

(** [error.response && error.response.data && error.response.data.status
    && error.response.data.status === "500"] *)
Definition reports500 (error : Thrown) : bool :=
  match d_response (diagnostics error) with
  | None => false
  | Some response =>
      Js.truthy (resp_data response) &&
      match Js.get (resp_data response) "status" with
      | Some status => Js.truthy status && Js.strictEqStr status "500"
      | None => false
      end
  end.

(** The callback [onSCIMDisabled] is a caller-supplied [() => void]; a call
    of it is recorded as the event [SCIMDisabledCall] and returns. *)
Definition getProfileInfo_catch (error : Thrown) : Promise (gmap string JsValue) :=
  let* _ := (if reports500 error then P.emit SCIMDisabledCall else P.resolve tt) in
  P.throw (wrap PROFILE_INFO_FETCH_REQUEST_ERROR error).

(** The chain up to its [catch]: request, then response handler. *)
Definition getProfileInfo_chain (gravatarConfig : option GravatarConfig)
    : Promise (gmap string JsValue) :=
  P.then_ (call_httpClient meRequest) (getProfileInfo_then gravatarConfig).

Definition getProfileInfo (gravatarConfig : option GravatarConfig)
    : Promise (gmap string JsValue) :=
  P.catch_ (getProfileInfo_chain gravatarConfig) getProfileInfo_catch.

(** *** [updateProfileInfo] *)

Definition updateRequest (info : JsValue) : RequestConfig :=
  {| rc_data := Some info;
     rc_headers := Some (HTTPRequestHeaders rt (clientHost rt) None None);
     rc_method := PATCH;
     rc_url := me (CommonServiceResourcesEndpoints rt (serverHost rt)) |}.

Definition updateProfileInfo_then (response : AxiosResponse) : Promise JsValue :=
  if negb (resp_status response =? 200)
  then P.throw (invalidResponse
                  PROFILE_INFO_UPDATE_REQUEST_INVALID_RESPONSE_CODE_ERROR response)
  else P.resolve (resp_data response).

Definition updateProfileInfo_chain (info : JsValue) : Promise JsValue :=
  P.then_ (call_httpClient (updateRequest info)) updateProfileInfo_then.

Definition updateProfileInfo (info : JsValue) : Promise JsValue :=
  P.catch_
    (updateProfileInfo_chain info)
    (fun error => P.throw (wrap PROFILE_INFO_UPDATE_REQUEST_ERROR error)).

(** *** [getProfileSchemas] *)

Definition schemasRequest : RequestConfig :=
  {| rc_data := None;
     rc_headers :=
       Some (HTTPRequestHeaders rt (clientHost rt) None (Some CONTENT_APP_JSON));
     rc_method := GET;
     rc_url := profileSchemas (CommonServiceResourcesEndpoints rt (serverHost rt)) |}.

(** [response.data[0].attributes] *)
Definition firstAttributes (data : JsValue) : option JsValue :=
  e0 ← Js.first data;
  Js.get e0 "attributes".

Definition getProfileSchemas_then (response : AxiosResponse) : Promise JsValue :=
  if negb (resp_status response =? 200)
  then P.throw (invalidResponse
                  SCHEMA_FETCH_REQUEST_INVALID_RESPONSE_CODE_ERROR response)
  else eval (firstAttributes (resp_data response)).

Definition getProfileSchemas_chain : Promise JsValue :=
  P.then_ (call_httpClient schemasRequest) getProfileSchemas_then.

Definition getProfileSchemas : Promise JsValue :=
  P.catch_
    getProfileSchemas_chain
    (fun error => P.throw (wrap SCHEMA_FETCH_REQUEST_ERROR error)).

(** *** [switchAccount] *)

Definition switchGrant (account : LinkedAccountInterface) : CustomGrantConfig :=
  {| attachToken := false;
     grant_data :=
       <["clientId" := "{{clientId}}"]>
       (<["grantType" := "account_switch"]>
       (<["scope" := "{{scope}}"]>
       (<["tenant-domain" := tenantDomain account]>
       (<["token" := "{{token}}"]>
       (<["username" := username account]>
       (<["userstore-domain" := userStoreDomain account]> ∅))))));
     returnResponse := true;
     returnsSession := true;
     signInRequired := true |}.

(** [response?.data] *)
Definition optionalData (response : JsValue) : JsValue :=
  default JUndefined (Js.get response "data").

Definition switchAccount (account : LinkedAccountInterface) : Promise JsValue :=
  P.catch_
    (let* response := call_customGrant (switchGrant account) in
     P.resolve (optionalData response))
    (fun error => P.throw (wrap ACCOUNT_SWITCH_REQUEST_ERROR error)).

End Client.

(** ** Application feature configuration: the [editApplication] hooks *)

Module ApplicationConfig.

Section EditApplication.

(** [ReactElement], [ApplicationTabTypes] and [ApplicationInterface] are
    imported types; the hooks never look inside them. *)
Variables ReactElement ApplicationTabTypes ApplicationInterface : Type.

Definition extendTabs : bool := false.

Definition getActions (_clientId _tenant _testId : string) : JsValue := JNull.

Definition getOveriddenTab (_clientId : string) (_tabName : ApplicationTabTypes)
    (defaultComponent : ReactElement) (_appName _appId _tenantDomain : string)
    : ReactElement :=
  defaultComponent.

Definition getOverriddenDescription
    (_clientId _templateName _tenantDomain : string) : JsValue := JNull.

Definition getOverriddenImage (_clientId _tenantDomain : string) : JsValue := JNull.

Definition getStrongAuthenticationFlowTabIndex
    (_clientId _tenantDomain templateId customApplicationTemplateId : string) : Z :=
  if String.eqb templateId customApplicationTemplateId then 3 else 4.

Definition getTabPanelReadOnlyStatus (_tabPanelName : string)
    (_applicationName : ApplicationInterface) : bool := false.

Definition isTabEnabledForApp (_clientId : string) (_tabType : ApplicationTabTypes)
    (_tenantDomain : string) : bool := true.

Definition renderHelpPanelItems : JsValue := JNull.

Definition showApplicationShare : bool := true.

Definition showDangerZone (_application : ApplicationInterface) : bool := true.

Definition showDeleteButton (_application : ApplicationInterface) : bool := true.

Definition showProvisioningSettings : bool := true.

End EditApplication.

End ApplicationConfig.

(** ** E-mail template list page *)

Module EmailTemplates.

(** [Array.prototype.slice(start, end)] on integer arguments: a negative
    index counts from the end, both are clamped to the array, and an end at
    or before the start gives the empty array. *)
Definition relativeIndex (len i : Z) : Z :=
  if i <? 0 then Z.max (len + i) 0 else Z.min i len.

Definition slice {A} (xs : list A) (start end_ : Z) : list A :=
  let len := Z.of_nat (length xs) in
  let k := relativeIndex len start in
  let final := relativeIndex len end_ in
  take (Z.to_nat (final - k)) (drop (Z.to_nat k) xs).

(** [path.split("/")], last element: the text after the last slash. *)
Fixpoint lastSegmentFrom (current path : string) : string :=
  match path with
  | EmptyString => current
  | String c rest =>
      if Ascii.eqb c "/"%char
      then lastSegmentFrom EmptyString rest
      else lastSegmentFrom (current +:+ String c EmptyString) rest
  end.

Definition lastSegment (path : string) : string := lastSegmentFrom EmptyString path.

Inductive PageEvent : Type :=
  | GetEmailTemplate (templateTypeId : string)
  | HistoryPush (path : string).

Section Page.

Variable EmailTemplate : Type.

(** [UserConstants.DEFAULT_EMAIL_TEMPLATE_TYPE_ITEM_LIMIT],
    [EMAIL_TEMPLATE_VIEW_PATH] and the current [history.location.pathname] *)
Variable DEFAULT_EMAIL_TEMPLATE_TYPE_ITEM_LIMIT : Z.
Variable EMAIL_TEMPLATE_VIEW_PATH : string.
Variable pathname : string.

(** [templates] is [None] when the body carries no array there. *)
Record EmailTemplateDetails : Type := mkDetails {
  displayName : option string;
  templates : option (list EmailTemplate)
}.

(** The six [useState] cells of the component. *)
Record State : Type := mkState {
  listItemLimit : Z;
  listOffset : Z;
  templateTypeId : string;
  emailTemplateTypeDetails : option EmailTemplateDetails;
  emailTemplates : list EmailTemplate;
  paginatedemailTemplates : list EmailTemplate
}.

Definition initialState : State :=
  mkState 0 0 "" None [] [].

Definition setListItemLimit (v : Z) (st : State) : State :=
  mkState v (listOffset st) (templateTypeId st) (emailTemplateTypeDetails st)
    (emailTemplates st) (paginatedemailTemplates st).

Definition setListOffset (v : Z) (st : State) : State :=
  mkState (listItemLimit st) v (templateTypeId st) (emailTemplateTypeDetails st)
    (emailTemplates st) (paginatedemailTemplates st).

Definition setTemplateTypeId (v : string) (st : State) : State :=
  mkState (listItemLimit st) (listOffset st) v (emailTemplateTypeDetails st)
    (emailTemplates st) (paginatedemailTemplates st).

Definition setEmailTemplateTypeDetails (v : EmailTemplateDetails) (st : State) : State :=
  mkState (listItemLimit st) (listOffset st) (templateTypeId st) (Some v)
    (emailTemplates st) (paginatedemailTemplates st).

Definition setEmailTemplates (v : list EmailTemplate) (st : State) : State :=
  mkState (listItemLimit st) (listOffset st) (templateTypeId st)
    (emailTemplateTypeDetails st) v (paginatedemailTemplates st).

Definition setPaginatedemailTemplates (v : list EmailTemplate) (st : State) : State :=
  mkState (listItemLimit st) (listOffset st) (templateTypeId st)
    (emailTemplateTypeDetails st) (emailTemplates st) v.

(** Every function below belongs to one render: [render] is the state that
    render saw (what its closures read), the last argument the state the
    queued updates are applied to. *)

Definition setEmailTemplateTypePage (render : State) (offsetValue itemLimit : Z)
    : State → State :=
  setPaginatedemailTemplates
    (slice (emailTemplates render) offsetValue (itemLimit + offsetValue)).

Definition handlePaginationChange (render : State) (activePage : Z) (st : State) : State :=
  let offsetValue := (activePage - 1) * listItemLimit render in
  setEmailTemplateTypePage render offsetValue (listItemLimit render)
    (setListOffset offsetValue st).

Definition handleItemsPerPageDropdownChange (render : State) (value : Z) (st : State)
    : State :=
  setEmailTemplateTypePage render (listOffset render) value
    (setListItemLimit value st).

Definition handleBackButtonClick : list PageEvent :=
  [HistoryPush EMAIL_TEMPLATE_VIEW_PATH].

Definition handleAddNewTemplate (render : State) : list PageEvent :=
  [HistoryPush (EMAIL_TEMPLATE_VIEW_PATH +:+ templateTypeId render +:+ "/add-template")].

(** The first effect, run once on mount. *)
Definition mountEffect : State → State :=
  setListItemLimit DEFAULT_EMAIL_TEMPLATE_TYPE_ITEM_LIMIT.

(** The second effect: its dependency array, the request it sends, and
    what its [then] handler does with the answer. *)
Definition fetchDeps (st : State) : bool * nat :=
  (bool_decide (is_Some (emailTemplateTypeDetails st)), length (emailTemplates st)).

Definition fetchEffect (st : State) : State * list PageEvent :=
  let id := lastSegment pathname in
  (setTemplateTypeId id st, [GetEmailTemplate id]).

Definition onTemplateResponse (render : State) (status : Z)
    (data : EmailTemplateDetails) (st : State) : State :=
  if status =? 200 then
    let st1 := setEmailTemplateTypeDetails data st in
    match templates data with
    | Some (t :: ts) =>
        setEmailTemplateTypePage render (listOffset render) (listItemLimit render)
          (setEmailTemplates (t :: ts) st1)
    | _ => st1
    end
  else st.

(** What happens on mount: both effects run on the initial state. *)
Definition mount : State * list PageEvent :=
  fetchEffect (mountEffect initialState).

(** A handler fired from the current render, followed by the re-render it
    causes: the fetch effect runs again only when one of its dependencies
    has changed. *)
Definition dispatch (handler : State → State → State) (st : State)
    : State * list PageEvent :=
  let st' := handler st st in
  if decide (fetchDeps st = fetchDeps st')
  then (st', [])
  else fetchEffect st'.

End Page.

End EmailTemplates.

(** ** The statements of the specification *)

(** The number of times the callback [onSCIMDisabled] is invoked in a run. *)
Definition isSCIMDisabledCall (ev : Event) : bool :=
  match ev with SCIMDisabledCall => true | _ => false end.

Definition invocations (t : list Event) : nat :=
  length (List.filter isSCIMDisabledCall t).

Definition quiet {A} (p : Promise A) : Prop := invocations (P.trace p) = 0%nat.

(** An error whose payload reports the status "500": the error carries a
    response, the body of that response is an object, and its [status] member
    is the string "500". *)
Definition payloadReports500 (error : Thrown) : Prop :=
  ∃ response body,
    d_response (diagnostics error) = Some response
    ∧ resp_data response = JObj body
    ∧ body !! "status" = Some (JStr "500").

(** The exception [x] carries the error constant [message] together with the
    stack, code, request, response and request config of [error]. *)
Definition carries (x : Thrown) (message : ProfileConstants) (error : Thrown) : Prop :=
  ∃ ex,
    x = ApiException ex
    ∧ ex_message ex = message
    ∧ d_stack (ex_context ex) = d_stack (diagnostics error)
    ∧ d_code (ex_context ex) = d_code (diagnostics error)
    ∧ d_request (ex_context ex) = d_request (diagnostics error)
    ∧ d_response (ex_context ex) = d_response (diagnostics error)
    ∧ d_config (ex_context ex) = d_config (diagnostics error).

(** The call fails, and what it throws carries [message] and the context of
    [error]. *)
Definition throws {A} (call : Promise A) (message : ProfileConstants)
    (error : Thrown) : Prop :=
  ∃ x, P.outcome call = Rejected x ∧ carries x message error.

(** A request made through [httpClient] fails with [error]: the HTTP layer
    rejects with it, or the response handler raises it on the response
    received. *)
Definition requestFails (net : Network) (requestConfig : RequestConfig) {A}
    (handler : AxiosResponse → Promise A) (error : Thrown) : Prop :=
  httpClient net requestConfig = Rejected error
  ∨ ∃ response,
      httpClient net requestConfig = Resolved response
      ∧ P.outcome (handler response) = Rejected error.

(** The page of the template list, as the specification writes it. *)
Module SliceSpec.

(** The slice [xs[lo : hi]] in the words of the specification: the elements
    of [xs] whose position [i] satisfies [lo <= i < hi], in their order; a
    negative bound counts from the end of the list. *)
Fixpoint select {A} (keep : Z → bool) (i : Z) (xs : list A) : list A :=
  match xs with
  | [] => []
  | x :: rest =>
      if keep i then x :: select keep (i + 1) rest else select keep (i + 1) rest
  end.

Definition position (len i : Z) : Z := if i <? 0 then len + i else i.

Definition sliceOf {A} (xs : list A) (lo hi : Z) : list A :=
  let len := Z.of_nat (length xs) in
  select (fun i => (position len lo <=? i) && (i <? position len hi)) 0 xs.

End SliceSpec.

(** ** Sample runs *)

(** A concrete runtime and concrete answers of the outside world, on which the
    client is run in the examples below. *)
Module Sample.

Definition rt : Runtime :=
  {| clientHost := "https://localhost:9001";
     serverHost := "https://localhost:9443";
     HTTPRequestHeaders := fun host _ _ => [("Access-Control-Allow-Origin", host)];
     CommonServiceResourcesEndpoints := fun host =>
       {| me := host +:+ "/scim2/Me";
          profileSchemas := host +:+ "/api/identity/user/v1.0/me/schemas" |};
     buildGravatarURL := fun email _ _ fallback =>
       "https://www.gravatar.com/avatar/"
       +:+ match email with JStr address => address | _ => "" end
       +:+ "?d=" +:+ fallback;
     typeErrorStack := "TypeError: Cannot read properties of undefined" |}.

Definition respond (status : Z) (data : JsValue) : AxiosResponse :=
  {| resp_status := status;
     resp_data := data;
     resp_request := JObj ∅;
     resp_config := JObj ∅ |}.

(** A transport failure: no response was received. *)
Definition networkError : Thrown :=
  AxiosError {| d_stack := JStr "Error: Network Error";
                d_code := JStr "ERR_NETWORK";
                d_request := JObj ∅;
                d_response := None;
                d_config := JObj ∅ |}.

(** A failure that came with a response. *)
Definition badResponse (response : AxiosResponse) : Thrown :=
  AxiosError {| d_stack := JStr "Error: Request failed";
                d_code := JStr "ERR_BAD_RESPONSE";
                d_request := JObj ∅;
                d_response := Some response;
                d_config := JObj ∅ |}.

(** The outside world answering every [httpClient] call with [server],
    every [axios.request] with [gravatar] and every grant with [grant]. *)
Definition network (server gravatar : Settled AxiosResponse)
    (grant : Settled JsValue) : Network :=
  {| httpClient := fun _ => server;
     axios_request := fun _ => gravatar;
     customGrant := fun _ => grant |}.

Definition address : JsValue := JStr "alice@example.com".

Definition gravatarURL : string :=
  "https://www.gravatar.com/avatar/alice@example.com?d=404".

Definition account : LinkedAccountInterface :=
  {| tenantDomain := "carbon.super";
     username := "alice";
     userStoreDomain := "PRIMARY" |}.

End Sample.

(** ** Further statements *)

(** A value on which a property read raises: [undefined] or [null]. *)
Definition nullish (v : JsValue) : Prop := v = JUndefined ∨ v = JNull.

(** The nine members the object literal of [getProfileInfo] writes before it
    spreads the response body. *)
Definition profileMembers : gset string :=
  {[ "emails"; "name"; "organisation"; "phoneNumbers"; "profileUrl";
     "responseStatus"; "roles"; "userImage"; "userName" ]}.

(** What the page hands to the list layout besides the visible slice. *)
Module Pagination.

Import EmailTemplates.

(** [Math.ceil(emailTemplates?.length / listItemLimit)], the [totalPages] of
    the list layout; [None] when the limit is 0 and the quotient is no finite
    number. *)
Definition totalPages {EmailTemplate : Type} (st : State EmailTemplate) : option Z :=
  if listItemLimit _ st =? 0 then None
  else Some (- ((- Z.of_nat (length (emailTemplates _ st))) / listItemLimit _ st)).

(** The page a click on page number [activePage] makes visible. *)
Definition pageShown {EmailTemplate : Type} (render : State EmailTemplate)
    (activePage : Z) : list EmailTemplate :=
  paginatedemailTemplates _ (handlePaginationChange _ render activePage render).

(** Whether a path holds a slash. *)
Fixpoint hasSlash (path : string) : bool :=
  match path with
  | EmptyString => false
  | String c rest => Ascii.eqb c "/"%char || hasSlash rest
  end.

End Pagination.

(** A page state for the examples: 25 templates, numbered, ten to a page,
    the third page showing. *)
Module SamplePage.

Import EmailTemplates.

Definition listed : State nat :=
  mkState nat 10 20 "account-confirmation" None (seq 0 25) (seq 20 5).

Definition received : EmailTemplateDetails nat :=
  mkDetails nat (Some "Account Confirmation") (Some [0; 1; 2]%nat).

End SamplePage.

(** * Properties *)

(** ** Promises *)

Lemma invocations_app (t1 t2 : list Event) :
  invocations (t1 ++ t2) = (invocations t1 + invocations t2)%nat.
Proof. unfold invocations. by rewrite List.filter_app, length_app. Qed.

Lemma then_trace_outcome {A B} (p : Promise A) (f : A → Promise B) :
  match P.outcome p with
  | Resolved a =>
      P.trace (P.then_ p f) = P.trace p ++ P.trace (f a)
      ∧ P.outcome (P.then_ p f) = P.outcome (f a)
  | Rejected e =>
      P.trace (P.then_ p f) = P.trace p ∧ P.outcome (P.then_ p f) = Rejected e
  end.
Proof. destruct p as [t [a|e]]; cbn; [destruct (f a)|]; done. Qed.

Lemma catch_trace_outcome {A} (p : Promise A) (g : Thrown → Promise A) :
  match P.outcome p with
  | Resolved a =>
      P.trace (P.catch_ p g) = P.trace p ∧ P.outcome (P.catch_ p g) = Resolved a
  | Rejected e =>
      P.trace (P.catch_ p g) = P.trace p ++ P.trace (g e)
      ∧ P.outcome (P.catch_ p g) = P.outcome (g e)
  end.
Proof. destruct p as [t [a|e]]; cbn; [|destruct (g e)]; done. Qed.

Lemma quiet_then {A B} (p : Promise A) (f : A → Promise B) :
  quiet p → (∀ a, quiet (f a)) → quiet (P.then_ p f).
Proof.
  unfold quiet. intros Hp Hf. pose proof (then_trace_outcome p f) as H.
  destruct (P.outcome p) as [a|e]; destruct H as [-> _]; [|done].
  rewrite invocations_app, Hp, (Hf a). done.
Qed.

Lemma quiet_catch {A} (p : Promise A) (g : Thrown → Promise A) :
  quiet p → (∀ e, quiet (g e)) → quiet (P.catch_ p g).
Proof.
  unfold quiet. intros Hp Hg. pose proof (catch_trace_outcome p g) as H.
  destruct (P.outcome p) as [a|e]; destruct H as [-> _]; [done|].
  rewrite invocations_app, Hp, (Hg e). done.
Qed.

Lemma quiet_eval {A} rt (o : option A) : quiet (eval rt o).
Proof. by destruct o. Qed.

Create HintDb quiet.
#[local] Hint Resolve quiet_eval : quiet.

Lemma wrap_carries message error : carries (wrap message error) message error.
Proof. unfold wrap, newException. eexists. split; [reflexivity|]. by cbn. Qed.

(** A [catch] handler that wraps and rethrows: the promise settles as before,
    except that a rejection reason is replaced by its wrapping. *)
Lemma catch_wrap_outcome {A} (p : Promise A) message :
  P.outcome (P.catch_ p (fun error => P.throw (wrap message error)))
  = match P.outcome p with
    | Resolved a => Resolved a
    | Rejected error => Rejected (wrap message error)
    end.
Proof. by destruct p as [t [a|e]]. Qed.

(** ** Profile service client *)

Section ClientProperties.

Variable rt : Runtime.
Variable net : Network.

(** *** The callback is fired by the [catch] handler only *)

Lemma quiet_getGravatarImage email size defaultImage fallback :
  quiet (getGravatarImage rt net email size defaultImage fallback).
Proof.
  unfold getGravatarImage.
  apply quiet_catch; [apply quiet_then|]; done.
Qed.

Lemma quiet_gravatarFallback data gravatarConfig :
  quiet (gravatarFallback rt net data gravatarConfig).
Proof.
  unfold gravatarFallback.
  apply quiet_catch; [apply quiet_then|]; auto using quiet_getGravatarImage with quiet.
  done.
Qed.

Lemma quiet_getProfileInfo_then gravatarConfig response :
  quiet (getProfileInfo_then rt net gravatarConfig response).
Proof.
  unfold getProfileInfo_then. case_match; [done|].
  apply quiet_then; [auto with quiet|]. intros fetch.
  apply quiet_then; [|auto with quiet].
  destruct fetch; [apply quiet_gravatarFallback | done].
Qed.

Lemma quiet_getProfileInfo_chain gravatarConfig :
  quiet (getProfileInfo_chain rt net gravatarConfig).
Proof.
  unfold getProfileInfo_chain.
  apply quiet_then; [done | apply quiet_getProfileInfo_then].
Qed.

(** The test the [catch] handler makes is the one the specification words. *)
Lemma reports500_spec error : reports500 error = true ↔ payloadReports500 error.
Proof.
  unfold reports500, payloadReports500.
  destruct (d_response (diagnostics error)) as [response|]; [|split; [done|]].
  - split.
    + intros H. exists response.
      destruct (resp_data response) as [| |b|n|s|xs|body]; try done;
        cbn in H; try (apply andb_true_iff in H as [_ H]; done).
      exists body. repeat split; [].
      destruct (body !! "status") as [[| |b|n|s|xs|o]|]; cbn in H; try done;
        try (apply andb_true_iff in H as [_ H]; done).
      apply andb_true_iff in H as [_ H]. apply String.eqb_eq in H. by subst.
    + intros (r & body & [= <-] & Hdata & Hstatus).
      rewrite Hdata. cbn. by rewrite Hstatus.
  - by intros (r & body & [=] & _).
Qed.

Lemma getProfileInfo_catch_run error :
  getProfileInfo_catch error
  = (if reports500 error then [SCIMDisabledCall] else [],
     Rejected (wrap PROFILE_INFO_FETCH_REQUEST_ERROR error)).
Proof. unfold getProfileInfo_catch. by destruct (reports500 error). Qed.

(** C3: when a [getProfileInfo] call fails with an error whose payload
    reports the status "500", the callback [onSCIMDisabled] is invoked
    exactly once, as the last step before the call fails; on every other
    failing call, and on every succeeding call, it is not invoked. *)
Theorem onSCIMDisabled_invoked_once_on_500 (gravatarConfig : option GravatarConfig) :
  let chain := getProfileInfo_chain rt net gravatarConfig in
  let call := getProfileInfo rt net gravatarConfig in
  (∀ error, P.outcome chain = Rejected error → payloadReports500 error →
      P.trace call = P.trace chain ++ [SCIMDisabledCall]
      ∧ invocations (P.trace call) = 1%nat
      ∧ P.outcome call = Rejected (wrap PROFILE_INFO_FETCH_REQUEST_ERROR error))
  ∧ (∀ error, P.outcome chain = Rejected error → ¬ payloadReports500 error →
      invocations (P.trace call) = 0%nat
      ∧ P.outcome call = Rejected (wrap PROFILE_INFO_FETCH_REQUEST_ERROR error))
  ∧ (∀ profile, P.outcome chain = Resolved profile →
      invocations (P.trace call) = 0%nat
      ∧ P.outcome call = Resolved profile).
Proof.
  intros chain call.
  pose proof (quiet_getProfileInfo_chain gravatarConfig) as Hquiet.
  pose proof (catch_trace_outcome chain getProfileInfo_catch) as Hcatch.
  unfold quiet in Hquiet.
  change (getProfileInfo_chain rt net gravatarConfig) with chain in Hquiet.
  change (P.catch_ chain getProfileInfo_catch) with call in Hcatch.
  clearbody call chain.
  split; [|split].
  all: intros x Hx; rewrite Hx in Hcatch; destruct Hcatch as [Htrace Hout].
  - intros H500. apply reports500_spec in H500.
    rewrite getProfileInfo_catch_run, H500 in Htrace, Hout.
    cbn [P.trace P.outcome fst snd] in Htrace, Hout.
    rewrite Htrace, invocations_app, Hquiet. done.
  - intros H500.
    assert (reports500 x = false) as Hno.
    { destruct (reports500 x) eqn:E; [|done]. by apply reports500_spec in E. }
    rewrite getProfileInfo_catch_run, Hno in Htrace, Hout.
    cbn [P.trace P.outcome fst snd] in Htrace, Hout.
    rewrite Htrace, invocations_app, Hquiet. done.
  - by rewrite Htrace.
Qed.

(** *** Running [getProfileInfo] on a 200 response *)

Abbreviation prop body k := (default JUndefined (body !! k)).

Lemma gravatarFallback_run data gravatarConfig :
  gravatarFallback rt net data gravatarConfig
  = match gravatarAddress data with
    | None => ([], Resolved "")
    | Some email =>
        let requestConfig :=
          gravatarRequest rt email (gravatarConfig ≫= size)
            (gravatarConfig ≫= defaultImage) (gravatarConfig ≫= fallback) in
        ([AxiosCall requestConfig],
         match axios_request net requestConfig with
         | Resolved _ => Resolved (rc_url requestConfig)
         | Rejected _ => Resolved ""
         end)
    end.
Proof.
  unfold gravatarFallback, getGravatarImage, call_axios.
  destruct (gravatarAddress data) as [email|]; [|done].
  cbn. by destruct (axios_request net _).
Qed.

Lemma needsGravatar_object body :
  needsGravatar (JObj body)
  = Some (Js.isEmpty (prop body "userImage")
          && negb (Js.truthy (prop body "profileUrl"))).
Proof. unfold needsGravatar. cbn. by destruct (Js.isEmpty _). Qed.

(** The members of the profile object that the body does not override. *)
Lemma profileResponse_object response gravatar body :
  resp_data response = JObj body →
  ∃ members,
    profileResponse response gravatar = Some (body ∪ members)
    ∧ members !! "emails" = Some (Js.or (prop body "emails") (JStr ""))
    ∧ members !! "name" = Some (Js.or (prop body "name") defaultName)
    ∧ members !! "organisation"
      = Some (if Js.truthy (prop body orgKey)
              then default JUndefined (Js.get (prop body orgKey) "organization")
              else JStr "")
    ∧ members !! "phoneNumbers" = Some (Js.or (prop body "phoneNumbers") (JArr []))
    ∧ members !! "profileUrl" = Some (Js.or (prop body "profileUrl") (JStr ""))
    ∧ members !! "roles" = Some (Js.or (prop body "roles") (JArr []))
    ∧ members !! "userImage"
      = Some (Js.or (prop body "userImage")
                (if Js.truthy (prop body "profileUrl")
                 then prop body "profileUrl" else JStr gravatar))
    ∧ members !! "userName" = Some (Js.or (prop body "userName") (JStr "")).
Proof.
  intros Hdata. unfold profileResponse. rewrite Hdata. cbn.
  destruct (Js.truthy (prop body orgKey)) eqn:Horg.
  - destruct (Js.get (prop body orgKey) "organization") as [organization|] eqn:Hget.
    + cbn. eexists. split; [reflexivity|]. by simplify_map_eq.
    + destruct (prop body orgKey); done.
  - cbn. eexists. split; [reflexivity|]. by simplify_map_eq.
Qed.

(** On a 200 response with an object for body, the response handler is the
    Gravatar fallback (when there is no image) followed by the object
    literal. *)
Lemma getProfileInfo_then_object gravatarConfig response body :
  resp_status response = 200 →
  resp_data response = JObj body →
  getProfileInfo_then rt net gravatarConfig response
  = let fetched :=
      if Js.isEmpty (prop body "userImage")
         && negb (Js.truthy (prop body "profileUrl"))
      then gravatarFallback rt net (JObj body) gravatarConfig
      else P.resolve "" in
    (P.trace fetched,
     match P.outcome fetched with
     | Resolved gravatar =>
         match profileResponse response gravatar with
         | Some profile => Resolved profile
         | None => Rejected (TypeError (typeErrorStack rt))
         end
     | Rejected e => Rejected e
     end).
Proof.
  intros Hstatus Hdata.
  unfold getProfileInfo_then. rewrite Hstatus, Hdata, needsGravatar_object.
  cbn [negb Z.eqb Pos.eqb eval P.then_ P.resolve].
  cbv zeta.
  destruct (if Js.isEmpty _ && negb _ then _ else _) as [t [gravatar|e]]; [|done].
  cbn [P.trace P.outcome fst snd].
  cbn beta. destruct (profileResponse response gravatar) eqn:E; cbn; rewrite ?E; cbn;
    by rewrite app_nil_r.
Qed.

Lemma gravatarFallback_resolves data gravatarConfig :
  ∃ gravatar,
    P.outcome (gravatarFallback rt net data gravatarConfig) = Resolved gravatar.
Proof.
  rewrite gravatarFallback_run.
  destruct (gravatarAddress data); [|by eexists].
  cbv zeta. cbn. destruct (axios_request net _); by eexists.
Qed.

(** The whole call on a 200 response with an object for body. *)
Lemma getProfileInfo_object gravatarConfig response body :
  httpClient net (meRequest rt) = Resolved response →
  resp_status response = 200 →
  resp_data response = JObj body →
  let fetched :=
    if Js.isEmpty (prop body "userImage")
       && negb (Js.truthy (prop body "profileUrl"))
    then gravatarFallback rt net (JObj body) gravatarConfig
    else P.resolve "" in
  ∃ gravatar profile,
    P.outcome fetched = Resolved gravatar
    ∧ profileResponse response gravatar = Some profile
    ∧ getProfileInfo rt net gravatarConfig
      = (HttpClientCall (meRequest rt) :: P.trace fetched, Resolved profile).
Proof.
  intros Hnet Hstatus Hdata fetched.
  assert (∃ gravatar, P.outcome fetched = Resolved gravatar) as [gravatar Hg].
  { subst fetched. destruct (_ && _); [apply gravatarFallback_resolves | by eexists]. }
  destruct (profileResponse_object response gravatar body Hdata)
    as (members & Hprofile & _).
  exists gravatar, (body ∪ members). split; [done|]. split; [done|].
  unfold getProfileInfo, getProfileInfo_chain, call_httpClient.
  rewrite Hnet. cbn [P.then_].
  rewrite (getProfileInfo_then_object gravatarConfig response body Hstatus Hdata).
  fold fetched. cbv zeta. rewrite Hg, Hprofile. reflexivity.
Qed.

(** C6, as the code has it: on a 200 response whose body is an object
    [getProfileInfo] resolves, and every field that the body lacks has its
    empty default in the profile returned: [emails] is "", [name] is
    [{ familyName: "", givenName: "" }], [phoneNumbers] is [[]],
    [profileUrl] is "", [roles] is [[]] and [userName] is "";
    [organisation] is "" when the body has no organisation of its own and
    no enterprise extension, or a falsy one, to read it from. *)
Theorem getProfileInfo_defaults gravatarConfig response body :
  httpClient net (meRequest rt) = Resolved response →
  resp_status response = 200 →
  resp_data response = JObj body →
  ∃ profile,
    P.outcome (getProfileInfo rt net gravatarConfig) = Resolved profile
    ∧ (body !! "emails" = None → profile !! "emails" = Some (JStr ""))
    ∧ (body !! "name" = None →
       profile !! "name"
       = Some (JObj (<["familyName" := JStr ""]> (<["givenName" := JStr ""]> ∅))))
    ∧ (body !! "organisation" = None →
       Js.truthy (default JUndefined (body !! orgKey)) = false →
       profile !! "organisation" = Some (JStr ""))
    ∧ (body !! "phoneNumbers" = None → profile !! "phoneNumbers" = Some (JArr []))
    ∧ (body !! "profileUrl" = None → profile !! "profileUrl" = Some (JStr ""))
    ∧ (body !! "roles" = None → profile !! "roles" = Some (JArr []))
    ∧ (body !! "userName" = None → profile !! "userName" = Some (JStr "")).
Proof.
  intros Hnet Hstatus Hdata.
  destruct (getProfileInfo_object gravatarConfig response body Hnet Hstatus Hdata)
    as (gravatar & profile & _ & Hprofile & Hrun).
  destruct (profileResponse_object response gravatar body Hdata)
    as (members & Hmembers & He & Hn & Ho & Hp & Hu & Hr & _ & Hm).
  rewrite Hmembers in Hprofile. injection Hprofile as <-.
  exists (body ∪ members). rewrite Hrun. split; [done|].
  split; [|split; [|split; [|split; [|split; [|split]]]]].
  all: intros Habsent; rewrite (lookup_union_r _ _ _ Habsent).
  - by rewrite He, Habsent.
  - by rewrite Hn, Habsent.
  - intros Hfalsy. by rewrite Ho, Hfalsy.
  - by rewrite Hp, Habsent.
  - by rewrite Hu, Habsent.
  - by rewrite Hr, Habsent.
  - by rewrite Hm, Habsent.
Qed.

(** *** Failures *)

(** Where a rejection of a request chain comes from: the HTTP layer, or the
    response handler. *)
Lemma chain_rejection {A} requestConfig (handler : AxiosResponse → Promise A) error :
  P.outcome (P.then_ (call_httpClient net requestConfig) handler) = Rejected error →
  httpClient net requestConfig = Rejected error
  ∨ ∃ response,
      httpClient net requestConfig = Resolved response
      ∧ P.outcome (handler response) = Rejected error.
Proof.
  unfold call_httpClient. destruct (httpClient net requestConfig) as [response|e]; cbn.
  - intros H. right. exists response. split; [done|]. by destruct (handler response).
  - intros [= ->]. by left.
Qed.

Lemma chain_fails {A} requestConfig (handler : AxiosResponse → Promise A) error :
  P.outcome (P.then_ (call_httpClient net requestConfig) handler) = Rejected error
  ↔ requestFails net requestConfig handler error.
Proof.
  split; [apply chain_rejection|].
  unfold requestFails, call_httpClient.
  intros [Hnet | (response & Hnet & Hhandler)]; rewrite Hnet; cbn; [done|].
  by destruct (handler response).
Qed.

Lemma wrap_throws {A} (p : Promise A) message error :
  P.outcome p = Rejected error →
  throws (P.catch_ p (fun e => P.throw (wrap message e))) message error.
Proof.
  intros Hp. exists (wrap message error). split; [|apply wrap_carries].
  by rewrite catch_wrap_outcome, Hp.
Qed.

Lemma getProfileInfo_outcome gravatarConfig :
  P.outcome (getProfileInfo rt net gravatarConfig)
  = match P.outcome (getProfileInfo_chain rt net gravatarConfig) with
    | Resolved profile => Resolved profile
    | Rejected error => Rejected (wrap PROFILE_INFO_FETCH_REQUEST_ERROR error)
    end.
Proof.
  unfold getProfileInfo.
  pose proof (catch_trace_outcome (getProfileInfo_chain rt net gravatarConfig)
                getProfileInfo_catch) as H.
  destruct (P.outcome (getProfileInfo_chain rt net gravatarConfig)) as [a|error];
    destruct H as [_ ->]; [done|].
  by rewrite getProfileInfo_catch_run.
Qed.

(** C7: each of the five client operations throws whenever its request
    fails, be it that the HTTP layer rejects, that the status is not 200
    or that the response handler raises another error, and it throws nothing
    else: what it throws is an [IdentityAppsApiException] with the error
    constant fixed for that operation, carrying the stack, code, request,
    response and request config of the error its [catch] handler received. *)
Theorem failures_throw_IdentityAppsApiException
    (email : JsValue) (size : option Z) (defaultImage fallback : option string)
    (gravatarConfig : option GravatarConfig) (info : JsValue)
    (account : LinkedAccountInterface) :
  let gravatar := getGravatarImage rt net email size defaultImage fallback in
  let fetch := getProfileInfo rt net gravatarConfig in
  let update := updateProfileInfo rt net info in
  let schemas := getProfileSchemas rt net in
  let switch := switchAccount net account in
  ((∀ error,
      axios_request net (gravatarRequest rt email size defaultImage fallback)
      = Rejected error →
      throws gravatar GRAVATAR_IMAGE_FETCH_REQUEST_ERROR error)
   ∧ (∀ x, P.outcome gravatar = Rejected x →
        ∃ error,
          axios_request net (gravatarRequest rt email size defaultImage fallback)
          = Rejected error
          ∧ carries x GRAVATAR_IMAGE_FETCH_REQUEST_ERROR error))
  ∧ ((∀ error,
        requestFails net (meRequest rt) (getProfileInfo_then rt net gravatarConfig) error →
        throws fetch PROFILE_INFO_FETCH_REQUEST_ERROR error)
     ∧ (∀ response, httpClient net (meRequest rt) = Resolved response →
          resp_status response ≠ 200 →
          throws fetch PROFILE_INFO_FETCH_REQUEST_ERROR
            (invalidResponse PROFILE_INFO_FETCH_REQUEST_INVALID_RESPONSE_CODE_ERROR
               response))
     ∧ (∀ x, P.outcome fetch = Rejected x →
          ∃ error,
            requestFails net (meRequest rt)
              (getProfileInfo_then rt net gravatarConfig) error
            ∧ P.outcome (getProfileInfo_chain rt net gravatarConfig) = Rejected error
            ∧ carries x PROFILE_INFO_FETCH_REQUEST_ERROR error))
  ∧ ((∀ error,
        requestFails net (updateRequest rt info) updateProfileInfo_then error →
        throws update PROFILE_INFO_UPDATE_REQUEST_ERROR error)
     ∧ (∀ response, httpClient net (updateRequest rt info) = Resolved response →
          resp_status response ≠ 200 →
          throws update PROFILE_INFO_UPDATE_REQUEST_ERROR
            (invalidResponse PROFILE_INFO_UPDATE_REQUEST_INVALID_RESPONSE_CODE_ERROR
               response))
     ∧ (∀ x, P.outcome update = Rejected x →
          ∃ error,
            requestFails net (updateRequest rt info) updateProfileInfo_then error
            ∧ P.outcome (updateProfileInfo_chain rt net info) = Rejected error
            ∧ carries x PROFILE_INFO_UPDATE_REQUEST_ERROR error))
  ∧ ((∀ error,
        requestFails net (schemasRequest rt) (getProfileSchemas_then rt) error →
        throws schemas SCHEMA_FETCH_REQUEST_ERROR error)
     ∧ (∀ response, httpClient net (schemasRequest rt) = Resolved response →
          resp_status response ≠ 200 →
          throws schemas SCHEMA_FETCH_REQUEST_ERROR
            (invalidResponse SCHEMA_FETCH_REQUEST_INVALID_RESPONSE_CODE_ERROR
               response))
     ∧ (∀ x, P.outcome schemas = Rejected x →
          ∃ error,
            requestFails net (schemasRequest rt) (getProfileSchemas_then rt) error
            ∧ P.outcome (getProfileSchemas_chain rt net) = Rejected error
            ∧ carries x SCHEMA_FETCH_REQUEST_ERROR error))
  ∧ ((∀ error, customGrant net (switchGrant account) = Rejected error →
        throws switch ACCOUNT_SWITCH_REQUEST_ERROR error)
     ∧ (∀ x, P.outcome switch = Rejected x →
          ∃ error,
            customGrant net (switchGrant account) = Rejected error
            ∧ carries x ACCOUNT_SWITCH_REQUEST_ERROR error)).
Proof.
  cbv zeta.
  assert (∀ response, resp_status response ≠ 200 →
            negb (resp_status response =? 200) = true) as Hneq.
  { intros response Hstatus. apply negb_true_iff, Z.eqb_neq, Hstatus. }
  assert (∀ error,
            requestFails net (meRequest rt) (getProfileInfo_then rt net gravatarConfig) error →
            throws (getProfileInfo rt net gravatarConfig)
              PROFILE_INFO_FETCH_REQUEST_ERROR error) as Hfetch.
  { intros error Hfails%chain_fails.
    exists (wrap PROFILE_INFO_FETCH_REQUEST_ERROR error). split; [|apply wrap_carries].
    rewrite getProfileInfo_outcome. unfold getProfileInfo_chain. by rewrite Hfails. }
  assert (∀ error,
            requestFails net (updateRequest rt info) updateProfileInfo_then error →
            throws (updateProfileInfo rt net info)
              PROFILE_INFO_UPDATE_REQUEST_ERROR error) as Hupdate.
  { intros error Hfails%chain_fails. by apply wrap_throws. }
  assert (∀ error,
            requestFails net (schemasRequest rt) (getProfileSchemas_then rt) error →
            throws (getProfileSchemas rt net) SCHEMA_FETCH_REQUEST_ERROR error) as Hschemas.
  { intros error Hfails%chain_fails. by apply wrap_throws. }
  split; [|split; [|split; [|split]]].
  - split.
    + intros error Hnet. apply wrap_throws. unfold call_axios. by rewrite Hnet.
    + intros x. unfold getGravatarImage. rewrite catch_wrap_outcome.
      unfold call_axios. destruct (axios_request net _) as [r|error]; cbn; [done|].
      intros [= <-]. eauto using wrap_carries.
  - split; [exact Hfetch|]. split.
    + intros response Hnet Hstatus. apply Hfetch. right. exists response.
      split; [done|]. unfold getProfileInfo_then. by rewrite (Hneq _ Hstatus).
    + intros x. rewrite getProfileInfo_outcome.
      destruct (P.outcome (getProfileInfo_chain rt net gravatarConfig))
        as [a|error] eqn:Hchain; [done|].
      intros [= <-]. exists error. split; [by apply chain_fails|].
      split; [done | apply wrap_carries].
  - split; [exact Hupdate|]. split.
    + intros response Hnet Hstatus. apply Hupdate. right. exists response.
      split; [done|]. unfold updateProfileInfo_then. by rewrite (Hneq _ Hstatus).
    + intros x. unfold updateProfileInfo. rewrite catch_wrap_outcome.
      destruct (P.outcome (updateProfileInfo_chain rt net info))
        as [a|error] eqn:Hchain; [done|].
      intros [= <-]. exists error. split; [by apply chain_fails|].
      split; [done | apply wrap_carries].
  - split; [exact Hschemas|]. split.
    + intros response Hnet Hstatus. apply Hschemas. right. exists response.
      split; [done|]. unfold getProfileSchemas_then. by rewrite (Hneq _ Hstatus).
    + intros x. unfold getProfileSchemas. rewrite catch_wrap_outcome.
      destruct (P.outcome (getProfileSchemas_chain rt net))
        as [a|error] eqn:Hchain; [done|].
      intros [= <-]. exists error. split; [by apply chain_fails|].
      split; [done | apply wrap_carries].
  - split.
    + intros error Hnet. apply wrap_throws. unfold call_customGrant. by rewrite Hnet.
    + intros x. unfold switchAccount. rewrite catch_wrap_outcome.
      unfold call_customGrant. destruct (customGrant net _) as [r|error]; cbn; [done|].
      intros [= <-]. eauto using wrap_carries.
Qed.

(** C8: for every linked account, [switchAccount] issues one custom grant,
    whose data has [grantType] "account_switch", [tenant-domain] the
    account's tenant domain, [username] the account's user name and
    [userstore-domain] the account's user store domain; when the grant
    fails, the call throws the account-switch request error constant. *)
Theorem switchAccount_custom_grant (account : LinkedAccountInterface) :
  ∃ grant,
    P.trace (switchAccount net account) = [CustomGrantCall grant]
    ∧ grant_data grant !! "grantType" = Some "account_switch"
    ∧ grant_data grant !! "tenant-domain" = Some (tenantDomain account)
    ∧ grant_data grant !! "username" = Some (username account)
    ∧ grant_data grant !! "userstore-domain" = Some (userStoreDomain account)
    ∧ (∀ error, customGrant net grant = Rejected error →
         ∃ x, P.outcome (switchAccount net account) = Rejected x
              ∧ carries x ACCOUNT_SWITCH_REQUEST_ERROR error)
    ∧ (∀ response, customGrant net grant = Resolved response →
         P.outcome (switchAccount net account) = Resolved (optionalData response)).
Proof.
  exists (switchGrant account).
  unfold switchAccount, call_customGrant.
  split; [by destruct (customGrant net _)|].
  do 4 (split; [done|]).
  split.
  - intros error ->. eexists. split; [reflexivity|]. apply wrap_carries.
  - by intros response ->.
Qed.

(** *** Status codes *)

Lemma chain_on_response {A} requestConfig (handler : AxiosResponse → Promise A) response :
  httpClient net requestConfig = Resolved response →
  P.outcome (P.then_ (call_httpClient net requestConfig) handler)
  = P.outcome (handler response).
Proof. unfold call_httpClient. intros ->. cbn. by destruct (handler response). Qed.

(** C1, as the code has it: on a response whose status is not 200 the
    response handlers of [getProfileInfo], [updateProfileInfo] and
    [getProfileSchemas] raise the invalid-response-code constant of their
    request, with the status as code and the response, its request and its
    config as context, and the call fails with an
    [IdentityAppsApiException]; [getGravatarImage] looks at no status and
    resolves with the URL whenever its request resolves. *)
Theorem non200_raises_invalid_response_code
    (gravatarConfig : option GravatarConfig) (info : JsValue)
    (response : AxiosResponse) :
  resp_status response ≠ 200 →
  let invalid message :=
    newException message JNull (JNum (resp_status response))
      (resp_request response) (Some response) (resp_config response) in
  (getProfileInfo_then rt net gravatarConfig response
   = P.throw (invalid PROFILE_INFO_FETCH_REQUEST_INVALID_RESPONSE_CODE_ERROR)
   ∧ (httpClient net (meRequest rt) = Resolved response →
      ∃ ex, P.outcome (getProfileInfo rt net gravatarConfig)
            = Rejected (ApiException ex)))
  ∧ (updateProfileInfo_then response
     = P.throw (invalid PROFILE_INFO_UPDATE_REQUEST_INVALID_RESPONSE_CODE_ERROR)
     ∧ (httpClient net (updateRequest rt info) = Resolved response →
        ∃ ex, P.outcome (updateProfileInfo rt net info) = Rejected (ApiException ex)))
  ∧ (getProfileSchemas_then rt response
     = P.throw (invalid SCHEMA_FETCH_REQUEST_INVALID_RESPONSE_CODE_ERROR)
     ∧ (httpClient net (schemasRequest rt) = Resolved response →
        ∃ ex, P.outcome (getProfileSchemas rt net) = Rejected (ApiException ex)))
  ∧ (∀ email size defaultImage fallback,
       axios_request net (gravatarRequest rt email size defaultImage fallback)
       = Resolved response →
       P.outcome (getGravatarImage rt net email size defaultImage fallback)
       = Resolved (rc_url (gravatarRequest rt email size defaultImage fallback))).
Proof.
  intros Hstatus invalid.
  assert (negb (resp_status response =? 200) = true) as Hneq.
  { apply negb_true_iff, Z.eqb_neq, Hstatus. }
  assert (getProfileInfo_then rt net gravatarConfig response
          = P.throw (invalid PROFILE_INFO_FETCH_REQUEST_INVALID_RESPONSE_CODE_ERROR)) as H1.
  { unfold getProfileInfo_then. by rewrite Hneq. }
  assert (updateProfileInfo_then response
          = P.throw (invalid PROFILE_INFO_UPDATE_REQUEST_INVALID_RESPONSE_CODE_ERROR)) as H2.
  { unfold updateProfileInfo_then. by rewrite Hneq. }
  assert (getProfileSchemas_then rt response
          = P.throw (invalid SCHEMA_FETCH_REQUEST_INVALID_RESPONSE_CODE_ERROR)) as H3.
  { unfold getProfileSchemas_then. by rewrite Hneq. }
  split; [|split; [|split]].
  - split; [done|]. intros Hnet.
    pose proof (catch_trace_outcome (getProfileInfo_chain rt net gravatarConfig)
                  getProfileInfo_catch) as H.
    unfold getProfileInfo_chain in H at 1.
    rewrite (chain_on_response _ _ _ Hnet), H1 in H. cbn [P.outcome P.throw snd] in H.
    destruct H as [_ H]. unfold getProfileInfo. rewrite H, getProfileInfo_catch_run.
    by eexists.
  - split; [done|]. intros Hnet.
    unfold updateProfileInfo. rewrite catch_wrap_outcome.
    unfold updateProfileInfo_chain. rewrite (chain_on_response _ _ _ Hnet), H2.
    by eexists.
  - split; [done|]. intros Hnet.
    unfold getProfileSchemas. rewrite catch_wrap_outcome.
    unfold getProfileSchemas_chain. rewrite (chain_on_response _ _ _ Hnet), H3.
    by eexists.
  - intros email size defaultImage fallback Hnet.
    unfold getGravatarImage, call_axios. by rewrite Hnet.
Qed.

(** *** The Gravatar fallback *)

(** When [getProfileInfo] can read an address for the Gravatar request. *)
Lemma gravatarAddress_cases body :
  (body !! "emails" = None → gravatarAddress (JObj body) = None)
  ∧ (body !! "emails" = Some (JArr []) → gravatarAddress (JObj body) = None)
  ∧ (∀ address rest, body !! "emails" = Some (JArr (JStr address :: rest)) →
       gravatarAddress (JObj body) = Some (JStr address))
  ∧ (∀ entry rest, body !! "emails" = Some (JArr (JObj entry :: rest)) →
       gravatarAddress (JObj body) = Some (default JUndefined (entry !! "value"))).
Proof.
  unfold gravatarAddress. cbn.
  split; [|split; [|split]]; intros; by simplify_option_eq.
Qed.


(** *** Profile schemas *)

(** C9, as the code has it: on a 200 response whose data array is empty,
    [getProfileSchemas] rejects with the generic
    [SCHEMA_FETCH_REQUEST_ERROR] constant; when the first element of the
    array is an object, it resolves with that element's [attributes], which
    is [undefined] when the element has no such field. *)
Theorem getProfileSchemas_first_attributes (response : AxiosResponse) :
  httpClient net (schemasRequest rt) = Resolved response →
  resp_status response = 200 →
  (resp_data response = JArr [] →
     ∃ x, P.outcome (getProfileSchemas rt net) = Rejected x
          ∧ carries x SCHEMA_FETCH_REQUEST_ERROR (TypeError (typeErrorStack rt)))
  ∧ (∀ first rest attributes,
       resp_data response = JArr (JObj first :: rest) →
       first !! "attributes" = Some attributes →
       P.outcome (getProfileSchemas rt net) = Resolved attributes)
  ∧ (∀ first rest,
       resp_data response = JArr (JObj first :: rest) →
       first !! "attributes" = None →
       P.outcome (getProfileSchemas rt net) = Resolved JUndefined).
Proof.
  intros Hnet Hstatus.
  assert (P.outcome (getProfileSchemas rt net)
          = match firstAttributes (resp_data response) with
            | Some attributes => Resolved attributes
            | None => Rejected (wrap SCHEMA_FETCH_REQUEST_ERROR
                                  (TypeError (typeErrorStack rt)))
            end) as Hrun.
  { unfold getProfileSchemas. rewrite catch_wrap_outcome.
    unfold getProfileSchemas_chain. rewrite (chain_on_response _ _ _ Hnet).
    unfold getProfileSchemas_then. rewrite Hstatus. cbn.
    by destruct (firstAttributes _). }
  rewrite Hrun. split; [|split].
  - intros ->. eexists. split; [reflexivity|]. apply wrap_carries.
  - intros first rest attributes -> Hattributes. cbn. by rewrite Hattributes.
  - intros first rest -> Hattributes. cbn. by rewrite Hattributes.
Qed.

End ClientProperties.

(** *** Sample runs of the client *)

Section SampleRuns.

Import Sample.

(** C1 fails as stated: [getGravatarImage] receives a response whose status
    is 204, not 200, and surfaces no exception at all: it resolves with
    the URL. *)
Lemma getGravatarImage_resolves_on_204 :
  let response := respond 204 JUndefined in
  let net := network (Resolved response) (Resolved response) (Resolved JNull) in
  let call := getGravatarImage rt net address None None None in
  axios_request net (gravatarRequest rt address None None None) = Resolved response
  ∧ resp_status response ≠ 200
  ∧ P.outcome call = Resolved gravatarURL
  ∧ ∀ x, P.outcome call ≠ Rejected x.
Proof. cbv zeta. split; [reflexivity|]. split; [done|]. split; [reflexivity|]. done. Qed.

Lemma non200_raises_invalid_response_code_witness :
  let response := respond 404 (JObj ∅) in
  let net := network (Resolved response) (Resolved response) (Resolved JNull) in
  resp_status response ≠ 200
  ∧ getProfileInfo_then rt net None response
    = P.throw (newException PROFILE_INFO_FETCH_REQUEST_INVALID_RESPONSE_CODE_ERROR
                 JNull (JNum 404) (JObj ∅) (Some response) (JObj ∅))
  ∧ (∃ ex, P.outcome (getProfileInfo rt net None) = Rejected (ApiException ex))
  ∧ P.outcome (getGravatarImage rt net address None None None)
    = Resolved gravatarURL.
Proof.
  intros response net.
  assert (resp_status response ≠ 200) as Hstatus by (cbn; lia).
  destruct (non200_raises_invalid_response_code rt net None JNull response Hstatus)
    as [[Hthen Hcall] [_ [_ Hgravatar]]].
  split; [exact Hstatus|]. split; [exact Hthen|]. split; [apply Hcall; reflexivity|].
  apply (Hgravatar address None None None). reflexivity.
Defined.

(** The same 404 through [getProfileInfo]: the exception thrown by the
    response handler is received by the [catch] chained after it, and what
    the caller sees carries [PROFILE_INFO_FETCH_REQUEST_ERROR], with the
    status, the request, the response and the config of the handler's
    exception as its context. *)
Lemma getProfileInfo_404_rethrown_by_catch :
  let response := respond 404 (JObj ∅) in
  let net := network (Resolved response) (Resolved response) (Resolved JNull) in
  P.outcome (getProfileInfo rt net None)
  = Rejected (newException PROFILE_INFO_FETCH_REQUEST_ERROR
                JNull (JNum 404) (JObj ∅) (Some response) (JObj ∅)).
Proof. reflexivity. Qed.



Lemma onSCIMDisabled_invoked_once_on_500_witness :
  let payload : gmap string JsValue := {[ "status" := JStr "500" ]} in
  let error := badResponse (respond 500 (JObj payload)) in
  let net := network (Rejected error) (Rejected error) (Resolved JNull) in
  let call := getProfileInfo rt net None in
  payloadReports500 error
  ∧ invocations (P.trace call) = 1%nat
  ∧ P.trace call = [HttpClientCall (meRequest rt); SCIMDisabledCall]
  ∧ P.outcome call = Rejected (wrap PROFILE_INFO_FETCH_REQUEST_ERROR error).
Proof.
  intros payload error net call.
  assert (payloadReports500 error) as H500.
  { exists (respond 500 (JObj payload)), payload.
    split; [reflexivity|]. split; reflexivity. }
  destruct (onSCIMDisabled_invoked_once_on_500 rt net None) as [Honce _].
  destruct (Honce error eq_refl H500) as (Htrace & Hcount & Hout).
  split; [exact H500|]. split; [exact Hcount|]. split; [exact Htrace|]. exact Hout.
Defined.

(** The test of the [catch] handler is a strict comparison with the string
    "500": a payload whose status is the number 500, or a bare HTTP status
    500 with no status in the payload, does not fire the callback. *)
Lemma onSCIMDisabled_not_invoked_on_numeric_500 :
  let numeric := badResponse (respond 500 (JObj {[ "status" := JNum 500 ]})) in
  let bare := badResponse (respond 500 (JObj ∅)) in
  let answer error := network (Rejected error) (Rejected error) (Resolved JNull) in
  invocations (P.trace (getProfileInfo rt (answer numeric) None)) = 0%nat
  ∧ invocations (P.trace (getProfileInfo rt (answer bare) None)) = 0%nat.
Proof. split; vm_compute; reflexivity. Qed.

(** C6 fails as stated, on two 200 responses.  A body that carries the
    enterprise extension without an [organization] in it has no organisation
    anywhere, and the profile's [organisation] is [undefined], not the empty
    string.  A body that is [null] has no field at all, and the call does
    not return a profile: reading the first field raises a [TypeError] and
    the call fails. *)
Lemma getProfileInfo_defaults_not_for_every_response :
  let extension : gmap string JsValue := {[ "department" := JStr "Research" ]} in
  let body : gmap string JsValue := {[ orgKey := JObj extension ]} in
  let answer data :=
    network (Resolved (respond 200 data)) (Resolved (respond 200 data)) (Resolved JNull) in
  body !! "organisation" = None
  ∧ extension !! "organization" = None
  ∧ (∃ profile,
       P.outcome (getProfileInfo rt (answer (JObj body)) None) = Resolved profile
       ∧ profile !! "organisation" = Some JUndefined)
  ∧ P.outcome (getProfileInfo rt (answer JNull) None)
    = Rejected (wrap PROFILE_INFO_FETCH_REQUEST_ERROR (TypeError (typeErrorStack rt))).
Proof.
  cbv zeta. split; [reflexivity|]. split; [reflexivity|]. split; [|reflexivity].
  eexists. split; [reflexivity|]. vm_compute. reflexivity.
Qed.

Lemma getProfileInfo_defaults_witness :
  let body : gmap string JsValue := {[ "userName" := JStr "alice" ]} in
  let response := respond 200 (JObj body) in
  let net := network (Resolved response) (Resolved response) (Resolved JNull) in
  ∃ profile,
    P.outcome (getProfileInfo rt net None) = Resolved profile
    ∧ profile !! "emails" = Some (JStr "")
    ∧ profile !! "organisation" = Some (JStr "")
    ∧ profile !! "phoneNumbers" = Some (JArr [])
    ∧ profile !! "roles" = Some (JArr [])
    ∧ profile !! "userName" = Some (JStr "alice").
Proof.
  intros body response net.
  destruct (getProfileInfo_defaults rt net None response body)
    as (profile & Hout & He & _ & Ho & Hp & _ & Hr & _); try reflexivity.
  exists profile.
  split; [exact Hout|]. split; [apply He; reflexivity|].
  split; [apply Ho; reflexivity|]. split; [apply Hp; reflexivity|].
  split; [apply Hr; reflexivity|].
  vm_compute in Hout. injection Hout as <-. vm_compute. reflexivity.
Defined.

Lemma failures_throw_IdentityAppsApiException_witness :
  let net := network (Rejected networkError) (Rejected networkError)
               (Rejected networkError) in
  let notFound := respond 404 (JObj ∅) in
  let answering := network (Resolved notFound) (Resolved notFound) (Resolved JNull) in
  throws (getGravatarImage rt net address None None None)
    GRAVATAR_IMAGE_FETCH_REQUEST_ERROR networkError
  ∧ throws (getProfileInfo rt net None) PROFILE_INFO_FETCH_REQUEST_ERROR networkError
  ∧ throws (updateProfileInfo rt net (JObj ∅))
      PROFILE_INFO_UPDATE_REQUEST_ERROR networkError
  ∧ throws (getProfileSchemas rt net) SCHEMA_FETCH_REQUEST_ERROR networkError
  ∧ throws (switchAccount net account) ACCOUNT_SWITCH_REQUEST_ERROR networkError
  ∧ throws (updateProfileInfo rt answering (JObj ∅)) PROFILE_INFO_UPDATE_REQUEST_ERROR
      (invalidResponse PROFILE_INFO_UPDATE_REQUEST_INVALID_RESPONSE_CODE_ERROR notFound)
  ∧ ∃ error,
      customGrant net (switchGrant account) = Rejected error
      ∧ carries (wrap ACCOUNT_SWITCH_REQUEST_ERROR networkError)
          ACCOUNT_SWITCH_REQUEST_ERROR error.
Proof.
  intros net notFound answering.
  destruct (failures_throw_IdentityAppsApiException rt net address None None None
              None (JObj ∅) account)
    as ((Hg & _) & (Hp & _) & (Hu & _) & (Hs & _) & (Ha & Honly)).
  destruct (failures_throw_IdentityAppsApiException rt answering address None None None
              None (JObj ∅) account)
    as (_ & _ & (_ & Hstatus & _) & _).
  split; [apply Hg; reflexivity|].
  split; [apply Hp; left; reflexivity|].
  split; [apply Hu; left; reflexivity|].
  split; [apply Hs; left; reflexivity|].
  split; [apply Ha; reflexivity|].
  split; [apply (Hstatus notFound); [reflexivity | cbn; lia]|].
  apply Honly. reflexivity.
Defined.

Lemma switchAccount_custom_grant_witness :
  let net := network (Rejected networkError) (Rejected networkError)
               (Rejected networkError) in
  ∃ grant,
    P.trace (switchAccount net account) = [CustomGrantCall grant]
    ∧ grant_data grant !! "grantType" = Some "account_switch"
    ∧ grant_data grant !! "tenant-domain" = Some "carbon.super"
    ∧ grant_data grant !! "username" = Some "alice"
    ∧ grant_data grant !! "userstore-domain" = Some "PRIMARY"
    ∧ ∃ x, P.outcome (switchAccount net account) = Rejected x
           ∧ carries x ACCOUNT_SWITCH_REQUEST_ERROR networkError.
Proof.
  intros net.
  destruct (switchAccount_custom_grant net account)
    as (grant & Htrace & Htype & Htenant & Huser & Hstore & Hfails & _).
  exists grant.
  split; [exact Htrace|]. split; [exact Htype|]. split; [exact Htenant|].
  split; [exact Huser|]. split; [exact Hstore|].
  apply Hfails. reflexivity.
Defined.

(** C9 fails as stated: the first element of the data array has no
    [attributes] field, and [getProfileSchemas] does not reject: it
    resolves with [undefined]. *)
Lemma getProfileSchemas_resolves_without_attributes :
  let first : gmap string JsValue :=
    {[ "id" := JStr "urn:ietf:params:scim:schemas:core:2.0:User" ]} in
  let response := respond 200 (JArr [JObj first]) in
  let net := network (Resolved response) (Resolved response) (Resolved JNull) in
  first !! "attributes" = None
  ∧ P.outcome (getProfileSchemas rt net) = Resolved JUndefined
  ∧ ∀ x, P.outcome (getProfileSchemas rt net) ≠ Rejected x.
Proof. cbv zeta. split; [reflexivity|]. split; [reflexivity|]. done. Qed.

Lemma getProfileSchemas_first_attributes_witness :
  let schemas := JArr [JObj {[ "name" := JStr "emails" ]}] in
  let first : gmap string JsValue := {[ "attributes" := schemas ]} in
  let filled := respond 200 (JArr [JObj first; JObj ∅]) in
  let empty := respond 200 (JArr []) in
  let answer response :=
    network (Resolved response) (Resolved response) (Resolved JNull) in
  P.outcome (getProfileSchemas rt (answer filled)) = Resolved schemas
  ∧ ∃ x, P.outcome (getProfileSchemas rt (answer empty)) = Rejected x
         ∧ carries x SCHEMA_FETCH_REQUEST_ERROR (TypeError (typeErrorStack rt)).
Proof.
  intros schemas first filled empty answer.
  destruct (getProfileSchemas_first_attributes rt (answer filled) filled eq_refl eq_refl)
    as (_ & Hfirst & _).
  destruct (getProfileSchemas_first_attributes rt (answer empty) empty eq_refl eq_refl)
    as (Hempty & _).
  split.
  - apply (Hfirst first [JObj ∅] schemas); reflexivity.
  - apply Hempty. reflexivity.
Defined.

End SampleRuns.

(** ** Application feature configuration *)

(** C10: the override hooks of [editApplication] apply no override:
    [getOveriddenTab] hands back its [defaultComponent] argument whatever the
    client id, tab name, application name, application id and tenant domain
    are, and [getActions], [getOverriddenDescription] and [getOverriddenImage]
    return [null] for every input. *)
Theorem editApplication_hooks_no_override :
  (∀ (ReactElement ApplicationTabTypes : Type) (clientId : string)
     (tabName : ApplicationTabTypes) (defaultComponent : ReactElement)
     (appName appId tenantDomain : string),
      ApplicationConfig.getOveriddenTab ReactElement ApplicationTabTypes
        clientId tabName defaultComponent appName appId tenantDomain
      = defaultComponent)
  ∧ (∀ clientId tenant testId : string,
      ApplicationConfig.getActions clientId tenant testId = JNull)
  ∧ (∀ clientId templateName tenantDomain : string,
      ApplicationConfig.getOverriddenDescription clientId templateName tenantDomain
      = JNull)
  ∧ (∀ clientId tenantDomain : string,
      ApplicationConfig.getOverriddenImage clientId tenantDomain = JNull).
Proof. repeat split. Qed.

(** ** E-mail template list page *)

Module EmailTemplatesSpec.

Import EmailTemplates SliceSpec.

Lemma select_take_drop {A} (a b : Z) (xs : list A) : ∀ i : Z,
  select (fun j => (a <=? j) && (j <? b)) i xs
  = take (Z.to_nat (Z.min b (i + Z.of_nat (length xs)) - Z.max a i))
         (drop (Z.to_nat (Z.max a i - i)) xs).
Proof.
  induction xs as [|x rest IH]; intros i.
  - simpl. by rewrite drop_nil, take_nil.
  - cbn [select length]. rewrite IH.
    replace (i + 1 + Z.of_nat (length rest)) with (i + Z.of_nat (S (length rest))) by lia.
    set (top := Z.min b (i + Z.of_nat (S (length rest)))).
    assert (Htop : top <= i + Z.of_nat (S (length rest))) by (subst top; lia).
    destruct (Z.leb_spec a i) as [Hai|Hai]; destruct (Z.ltb_spec i b) as [Hib|Hib]; cbn [andb].
    + replace (Z.max a i - i) with 0 by lia.
      replace (Z.max a (i + 1) - (i + 1)) with 0 by lia.
      replace (Z.to_nat (top - Z.max a i)) with (S (Z.to_nat (top - Z.max a (i + 1))))
        by (subst top; lia).
      reflexivity.
    + replace (Z.to_nat (top - Z.max a (i + 1))) with 0%nat by (subst top; lia).
      replace (Z.to_nat (top - Z.max a i)) with 0%nat by (subst top; lia).
      reflexivity.
    + replace (Z.to_nat (Z.max a i - i)) with (S (Z.to_nat (Z.max a (i + 1) - (i + 1)))) by lia.
      replace (Z.max a (i + 1)) with (Z.max a i) by lia.
      reflexivity.
    + replace (Z.to_nat (Z.max a i - i)) with (S (Z.to_nat (Z.max a (i + 1) - (i + 1)))) by lia.
      replace (Z.max a (i + 1)) with (Z.max a i) by lia.
      reflexivity.
Qed.

(** [Array.prototype.slice] computes the slice of the specification. *)
Lemma slice_sliceOf {A} (xs : list A) (lo hi : Z) : slice xs lo hi = sliceOf xs lo hi.
Proof.
  unfold slice, sliceOf. rewrite select_take_drop.
  set (len := Z.of_nat (length xs)).
  replace (0 + len) with len by lia.
  replace (Z.max (position len lo) 0 - 0) with (Z.max (position len lo) 0) by lia.
  destruct (Z.le_gt_cases (position len lo) len) as [Hle|Hgt].
  - assert (Hk : relativeIndex len lo = Z.max (position len lo) 0).
    { unfold relativeIndex, position in *. destruct (lo <? 0) eqn:E; lia. }
    rewrite Hk. f_equal.
    unfold relativeIndex, position in *.
    destruct (lo <? 0) eqn:E1; destruct (hi <? 0) eqn:E2; lia.
  - rewrite (drop_ge xs (Z.to_nat (relativeIndex len lo))).
    + rewrite (drop_ge xs (Z.to_nat (Z.max (position len lo) 0))).
      * by rewrite !take_nil.
      * subst len. lia.
    + unfold relativeIndex, position in *. subst len.
      destruct (lo <? 0) eqn:E; lia.
Qed.

(** C4: for every template list, offset and limit, the page that
    [setEmailTemplateTypePage] makes visible is the slice
    [templates[offset : offset + limit]]; on a list of 25 items, offset 0
    with limit 10 shows the items 0 to 9 and offset 20 with limit 10 shows
    the items 20 to 24, the end of the list cutting the page short. *)
Theorem setEmailTemplateTypePage_visible_slice :
  (∀ (EmailTemplate : Type) (render st : State EmailTemplate) (offset limit : Z),
      paginatedemailTemplates _ (setEmailTemplateTypePage _ render offset limit st)
      = sliceOf (emailTemplates _ render) offset (offset + limit))
  ∧ (∀ st : State nat,
      let render := setEmailTemplates nat (seq 0 25) (initialState nat) in
      paginatedemailTemplates _ (setEmailTemplateTypePage _ render 0 10 st)
      = [0; 1; 2; 3; 4; 5; 6; 7; 8; 9]%nat
      ∧ paginatedemailTemplates _ (setEmailTemplateTypePage _ render 20 10 st)
        = [20; 21; 22; 23; 24]%nat).
Proof.
  split.
  - intros T render st offset limit. cbn.
    rewrite slice_sliceOf. f_equal. lia.
  - intros st. split; reflexivity.
Qed.

(** The fetch effect does run again when a dependency changes: here the
    length of the template list. *)
Lemma dispatch_refetches_on_new_list (st : State nat) :
  (dispatch _ "/email-templates/account-confirmation"
     (fun _ => setEmailTemplates _ (0%nat :: emailTemplates _ st)) st).2
  = [GetEmailTemplate "account-confirmation"].
Proof.
  unfold dispatch. destruct (decide _) as [Hdeps|_]; [|reflexivity].
  apply (f_equal snd) in Hdeps. cbn in Hdeps. lia.
Qed.


End EmailTemplatesSpec.

(** * Further properties *)

(** ** Profile service client *)

Section ClientFurther.

Variable rt : Runtime.
Variable net : Network.

Lemma get_defined (v : JsValue) (k : string) :
  ¬ nullish v → ∃ w, Js.get v k = Some w.
Proof.
  unfold nullish. intros Hv.
  destruct v; cbn; eauto; exfalso; apply Hv; auto.
Qed.

Lemma get_nullish (v : JsValue) (k : string) : nullish v → Js.get v k = None.
Proof. by intros [-> | ->]. Qed.

Lemma needsGravatar_defined (data : JsValue) :
  (nullish data → needsGravatar data = None)
  ∧ (¬ nullish data → ∃ fetch, needsGravatar data = Some fetch).
Proof.
  unfold needsGravatar. split.
  - intros H. rewrite (get_nullish data "userImage" H). reflexivity.
  - intros H.
    destruct (get_defined data "userImage" H) as [userImage ->].
    destruct (get_defined data "profileUrl" H) as [profileUrl ->].
    cbn. destruct (Js.isEmpty userImage); eauto.
Qed.

Lemma profileResponse_defined (response : AxiosResponse) (gravatar : string) :
  ¬ nullish (resp_data response) →
  ∃ profile, profileResponse response gravatar = Some profile.
Proof.
  intros H. unfold profileResponse.
  destruct (get_defined _ "profileUrl" H) as [profileUrl ->].
  destruct (get_defined _ "emails" H) as [emails ->].
  destruct (get_defined _ "name" H) as [name ->].
  destruct (get_defined _ orgKey H) as [org ->].
  destruct (get_defined _ "phoneNumbers" H) as [phoneNumbers ->].
  destruct (get_defined _ "roles" H) as [roles ->].
  destruct (get_defined _ "userImage" H) as [userImage ->].
  destruct (get_defined _ "userName" H) as [userName ->].
  cbn. destruct (Js.truthy org) eqn:Horg; cbn; [|eauto].
  destruct (get_defined org "organization") as [organization ->]; [|cbn; eauto].
  intros [-> | ->]; discriminate Horg.
Qed.

(** The response handler of [getProfileInfo] on a 200 response, whatever the
    body is. *)
Lemma getProfileInfo_then_200 gravatarConfig response :
  resp_status response = 200 →
  getProfileInfo_then rt net gravatarConfig response
  = match needsGravatar (resp_data response) with
    | None => P.throw (TypeError (typeErrorStack rt))
    | Some fetch =>
        let fetched :=
          if fetch : bool
          then gravatarFallback rt net (resp_data response) gravatarConfig
          else P.resolve "" in
        (P.trace fetched,
         match P.outcome fetched with
         | Resolved gravatar =>
             match profileResponse response gravatar with
             | Some profile => Resolved profile
             | None => Rejected (TypeError (typeErrorStack rt))
             end
         | Rejected e => Rejected e
         end)
    end.
Proof.
  intros Hstatus. unfold getProfileInfo_then. rewrite Hstatus.
  cbn [negb Z.eqb Pos.eqb].
  destruct (needsGravatar (resp_data response)) as [fetch|]; [|done].
  cbn [eval P.then_ P.resolve]. cbv zeta.
  destruct (if fetch then _ else _) as [t [gravatar|e]]; [|done].
  cbn [P.trace P.outcome fst snd]. cbn beta.
  destruct (profileResponse response gravatar) eqn:E; cbn; rewrite ?E; cbn;
    by rewrite app_nil_r.
Qed.

Lemma gravatarFallback_shape data gravatarConfig :
  ∃ gravatar,
    P.outcome (gravatarFallback rt net data gravatarConfig) = Resolved gravatar
    ∧ (P.trace (gravatarFallback rt net data gravatarConfig) = []
       ∨ ∃ requestConfig,
           P.trace (gravatarFallback rt net data gravatarConfig)
           = [AxiosCall requestConfig]
           ∧ rc_method requestConfig = GET).
Proof.
  rewrite gravatarFallback_run.
  destruct (gravatarAddress data) as [email|]; [|by eexists; split; [|left]].
  cbv zeta. cbn [P.trace P.outcome fst snd].
  destruct (axios_request net _); eexists; (split; [reflexivity|]); right;
    by eexists.
Qed.

(** The whole call, by what the HTTP layer answers. *)
Lemma getProfileInfo_run gravatarConfig :
  getProfileInfo rt net gravatarConfig
  = match httpClient net (meRequest rt) with
    | Rejected error =>
        (HttpClientCall (meRequest rt)
           :: (if reports500 error then [SCIMDisabledCall] else []),
         Rejected (wrap PROFILE_INFO_FETCH_REQUEST_ERROR error))
    | Resolved response =>
        let handled := getProfileInfo_then rt net gravatarConfig response in
        match P.outcome handled with
        | Resolved profile =>
            (HttpClientCall (meRequest rt) :: P.trace handled, Resolved profile)
        | Rejected error =>
            (HttpClientCall (meRequest rt) :: P.trace handled
               ++ (if reports500 error then [SCIMDisabledCall] else []),
             Rejected (wrap PROFILE_INFO_FETCH_REQUEST_ERROR error))
        end
    end.
Proof.
  unfold getProfileInfo, getProfileInfo_chain, call_httpClient.
  destruct (httpClient net (meRequest rt)) as [response|error].
  - cbn [P.then_]. cbv zeta.
    destruct (getProfileInfo_then rt net gravatarConfig response) as [t [profile|error]].
    + reflexivity.
    + cbn [P.catch_ P.outcome P.trace fst snd].
      rewrite getProfileInfo_catch_run. reflexivity.
  - cbn [P.then_ P.catch_]. rewrite getProfileInfo_catch_run. reflexivity.
Qed.

Lemma nullish_dec (v : JsValue) : {nullish v} + {¬ nullish v}.
Proof.
  unfold nullish.
  destruct v; [left; by left | left; by right | right .. ]; intros [?|?]; discriminate.
Qed.

Lemma getProfileInfo_then_not_200 gravatarConfig response :
  resp_status response ≠ 200 →
  getProfileInfo_then rt net gravatarConfig response
  = P.throw (invalidResponse
               PROFILE_INFO_FETCH_REQUEST_INVALID_RESPONSE_CODE_ERROR response).
Proof.
  intros Hstatus. unfold getProfileInfo_then.
  by rewrite (proj2 (negb_true_iff _) (proj2 (Z.eqb_neq _ _) Hstatus)).
Qed.

Lemma getProfileInfo_then_nullish gravatarConfig response :
  resp_status response = 200 →
  nullish (resp_data response) →
  getProfileInfo_then rt net gravatarConfig response
  = P.throw (TypeError (typeErrorStack rt)).
Proof.
  intros Hstatus Hdata. rewrite (getProfileInfo_then_200 _ _ Hstatus).
  by rewrite (proj1 (needsGravatar_defined _) Hdata).
Qed.

Lemma getProfileInfo_then_resolves gravatarConfig response :
  resp_status response = 200 →
  ¬ nullish (resp_data response) →
  ∃ profile,
    P.outcome (getProfileInfo_then rt net gravatarConfig response) = Resolved profile
    ∧ (P.trace (getProfileInfo_then rt net gravatarConfig response) = []
       ∨ ∃ requestConfig,
           P.trace (getProfileInfo_then rt net gravatarConfig response)
           = [AxiosCall requestConfig]
           ∧ rc_method requestConfig = GET).
Proof.
  intros Hstatus Hdata. rewrite (getProfileInfo_then_200 _ _ Hstatus).
  destruct (proj2 (needsGravatar_defined _) Hdata) as [fetch ->]. cbv zeta.
  destruct fetch.
  - destruct (gravatarFallback_shape (resp_data response) gravatarConfig)
      as (gravatar & -> & Htrace).
    destruct (profileResponse_defined response gravatar Hdata) as [profile ->].
    exists profile. split; [reflexivity|]. exact Htrace.
  - cbn [P.resolve P.trace P.outcome fst snd].
    destruct (profileResponse_defined response "" Hdata) as [profile ->].
    exists profile. split; [reflexivity|]. by left.
Qed.

(** X1: the outside calls of [getProfileInfo] are always one of three
    sequences: the profile request alone; the profile request followed by
    one Gravatar [GET], and then the call resolves; or the profile request
    followed by the callback [onSCIMDisabled], and then the call fails.  It
    sends one profile request, at most one Gravatar request, and never fires
    the callback after a Gravatar request. *)
Theorem getProfileInfo_outside_calls (gravatarConfig : option GravatarConfig) :
  let call := getProfileInfo rt net gravatarConfig in
  P.trace call = [HttpClientCall (meRequest rt)]
  ∨ (∃ requestConfig profile,
       P.trace call = [HttpClientCall (meRequest rt); AxiosCall requestConfig]
       ∧ rc_method requestConfig = GET
       ∧ P.outcome call = Resolved profile)
  ∨ (∃ x,
       P.trace call = [HttpClientCall (meRequest rt); SCIMDisabledCall]
       ∧ P.outcome call = Rejected x).
Proof.
  cbv zeta. rewrite getProfileInfo_run.
  destruct (httpClient net (meRequest rt)) as [response|error].
  - destruct (Z.eq_dec (resp_status response) 200) as [Hstatus|Hstatus].
    + destruct (nullish_dec (resp_data response)) as [Hdata|Hdata].
      * rewrite (getProfileInfo_then_nullish _ _ Hstatus Hdata). by left.
      * destruct (getProfileInfo_then_resolves gravatarConfig response Hstatus Hdata)
          as (profile & Hout & [Htrace | (requestConfig & Htrace & Hget)]).
        -- cbv zeta. rewrite Hout, Htrace. by left.
        -- cbv zeta. rewrite Hout, Htrace. right; left. by exists requestConfig, profile.
    + rewrite (getProfileInfo_then_not_200 _ _ Hstatus).
      unfold P.throw. cbn [P.outcome P.trace fst snd app].
      destruct (reports500 (invalidResponse _ response));
        [right; right; by eexists | by left].
  - destruct (reports500 error); [right; right; by eexists | by left].
Qed.

(** X2: [getProfileInfo] resolves exactly when the HTTP layer answers with a
    response whose status is 200 and whose body is neither [undefined] nor
    [null]; a Gravatar failure, a body without e-mail addresses or a body
    that is no object never make it fail. *)
Theorem getProfileInfo_resolves_iff (gravatarConfig : option GravatarConfig) :
  (∃ profile, P.outcome (getProfileInfo rt net gravatarConfig) = Resolved profile)
  ↔ ∃ response,
      httpClient net (meRequest rt) = Resolved response
      ∧ resp_status response = 200
      ∧ ¬ nullish (resp_data response).
Proof.
  rewrite getProfileInfo_run.
  destruct (httpClient net (meRequest rt)) as [response|error].
  - destruct (Z.eq_dec (resp_status response) 200) as [Hstatus|Hstatus].
    + destruct (nullish_dec (resp_data response)) as [Hdata|Hdata].
      * rewrite (getProfileInfo_then_nullish _ _ Hstatus Hdata). cbn. split.
        -- by intros [profile ?].
        -- intros (r & [= <-] & _ & Hnot). by destruct Hnot.
      * destruct (getProfileInfo_then_resolves gravatarConfig response Hstatus Hdata)
          as (profile & Hout & _).
        cbv zeta. rewrite Hout. split; [|by eexists].
        intros _. by exists response.
    + rewrite (getProfileInfo_then_not_200 _ _ Hstatus). cbn. split.
      * by intros [profile ?].
      * intros (r & [= <-] & Heq & _). by destruct Hstatus.
  - split; [by intros [profile ?] | by intros (r & ? & _)].
Qed.

(** *** The profile object *)

Abbreviation member body k := (default JUndefined (body !! k)).

Lemma profileResponse_spread response gravatar body :
  resp_data response = JObj body →
  ∃ members,
    profileResponse response gravatar = Some (body ∪ members)
    ∧ dom members = profileMembers.
Proof.
  intros Hdata. unfold profileResponse. rewrite Hdata. cbn.
  assert (∃ organisation,
            (if Js.truthy (member body orgKey)
             then Js.get (member body orgKey) "organization"
             else Some (JStr "")) = Some organisation) as [organisation ->].
  { destruct (Js.truthy (member body orgKey)) eqn:Horg; [|by eexists].
    apply get_defined. intros [H | H]; rewrite H in Horg; discriminate Horg. }
  cbn. eexists. split; [reflexivity|].
  rewrite !dom_insert_L, dom_empty_L. unfold profileMembers. set_solver.
Qed.

(** X3: every member of the response body reaches the profile unchanged: the
    spread of the body comes last in the object literal, so a member of the
    body wins over the value computed for it, also when it is [null], empty
    or otherwise falsy. *)
Theorem getProfileInfo_body_members_win
    (gravatarConfig : option GravatarConfig) (response : AxiosResponse)
    (body : gmap string JsValue) :
  httpClient net (meRequest rt) = Resolved response →
  resp_status response = 200 →
  resp_data response = JObj body →
  ∃ profile,
    P.outcome (getProfileInfo rt net gravatarConfig) = Resolved profile
    ∧ ∀ k v, body !! k = Some v → profile !! k = Some v.
Proof.
  intros Hnet Hstatus Hdata.
  destruct (getProfileInfo_object rt net gravatarConfig response body Hnet Hstatus Hdata)
    as (gravatar & profile & _ & Hprofile & Hrun).
  destruct (profileResponse_spread response gravatar body Hdata)
    as (members & Hmembers & _).
  rewrite Hmembers in Hprofile. injection Hprofile as <-.
  exists (body ∪ members). rewrite Hrun. split; [done|].
  intros k v Hk. by apply lookup_union_Some_l.
Qed.

(** X4: the members of the profile returned are those of the response body
    together with the nine the function writes itself ([emails], [name],
    [organisation], [phoneNumbers], [profileUrl], [responseStatus], [roles],
    [userImage], [userName]); none of the nine is ever missing. *)
Theorem getProfileInfo_profile_members
    (gravatarConfig : option GravatarConfig) (response : AxiosResponse)
    (body : gmap string JsValue) :
  httpClient net (meRequest rt) = Resolved response →
  resp_status response = 200 →
  resp_data response = JObj body →
  ∃ profile,
    P.outcome (getProfileInfo rt net gravatarConfig) = Resolved profile
    ∧ dom profile = dom body ∪ profileMembers.
Proof.
  intros Hnet Hstatus Hdata.
  destruct (getProfileInfo_object rt net gravatarConfig response body Hnet Hstatus Hdata)
    as (gravatar & profile & _ & Hprofile & Hrun).
  destruct (profileResponse_spread response gravatar body Hdata)
    as (members & Hmembers & Hdom).
  rewrite Hmembers in Hprofile. injection Hprofile as <-.
  exists (body ∪ members). rewrite Hrun. split; [done|].
  by rewrite dom_union_L, Hdom.
Qed.

(** X5: [organisation] is read from the enterprise extension of the body:
    when the body has that extension as an object and no [organisation] of
    its own, the profile's [organisation] is the [organization] of the
    extension, and [undefined], not the empty string, when the extension
    has none. *)
Theorem getProfileInfo_organisation_from_extension
    (gravatarConfig : option GravatarConfig) (response : AxiosResponse)
    (body extension : gmap string JsValue) :
  httpClient net (meRequest rt) = Resolved response →
  resp_status response = 200 →
  resp_data response = JObj body →
  body !! orgKey = Some (JObj extension) →
  body !! "organisation" = None →
  ∃ profile,
    P.outcome (getProfileInfo rt net gravatarConfig) = Resolved profile
    ∧ profile !! "organisation"
      = Some (default JUndefined (extension !! "organization")).
Proof.
  intros Hnet Hstatus Hdata Hextension Hnone.
  destruct (getProfileInfo_object rt net gravatarConfig response body Hnet Hstatus Hdata)
    as (gravatar & profile & _ & Hprofile & Hrun).
  destruct (profileResponse_object response gravatar body Hdata)
    as (members & Hmembers & _ & _ & Ho & _).
  rewrite Hmembers in Hprofile. injection Hprofile as <-.
  exists (body ∪ members). rewrite Hrun. split; [done|].
  rewrite (lookup_union_r _ _ _ Hnone), Ho, Hextension. reflexivity.
Qed.

(** *** Where the image comes from *)

(** X6: when the body has neither [userImage] nor [profileUrl], an address
    is read from its [emails] and the Gravatar request succeeds, the
    [userImage] of the profile is the Gravatar URL, built from the address
    and the size, default image and fallback of the Gravatar configuration
    (fallback "404" when none is given); [profileUrl] stays empty. *)
Theorem getProfileInfo_userImage_from_gravatar
    (gravatarConfig : option GravatarConfig) (response answer : AxiosResponse)
    (body : gmap string JsValue) (address : string) :
  httpClient net (meRequest rt) = Resolved response →
  resp_status response = 200 →
  resp_data response = JObj body →
  body !! "userImage" = None →
  body !! "profileUrl" = None →
  gravatarAddress (JObj body) = Some (JStr address) →
  axios_request net
    (gravatarRequest rt (JStr address) (gravatarConfig ≫= size)
       (gravatarConfig ≫= defaultImage) (gravatarConfig ≫= fallback))
  = Resolved answer →
  ∃ profile,
    P.outcome (getProfileInfo rt net gravatarConfig) = Resolved profile
    ∧ profile !! "userImage"
      = Some (JStr (buildGravatarURL rt (JStr address) (gravatarConfig ≫= size)
                      (gravatarConfig ≫= defaultImage)
                      (default "404" (gravatarConfig ≫= fallback))))
    ∧ profile !! "profileUrl" = Some (JStr "").
Proof.
  intros Hnet Hstatus Hdata Himage Hurl Haddress Hanswer.
  destruct (getProfileInfo_object rt net gravatarConfig response body Hnet Hstatus Hdata)
    as (gravatar & profile & Hfetched & Hprofile & Hrun).
  rewrite Himage, Hurl in Hfetched. cbn [default Js.isEmpty Js.truthy negb andb] in Hfetched.
  rewrite gravatarFallback_run, Haddress in Hfetched. cbv zeta in Hfetched.
  cbn [P.outcome snd] in Hfetched. rewrite Hanswer in Hfetched.
  injection Hfetched as Hgravatar.
  destruct (profileResponse_object response gravatar body Hdata)
    as (members & Hmembers & _ & _ & _ & _ & Hu & _ & Hi & _).
  rewrite Hmembers in Hprofile. injection Hprofile as <-.
  exists (body ∪ members). rewrite Hrun. split; [done|]. split.
  - rewrite (lookup_union_r _ _ _ Himage), Hi, Himage, Hurl, <- Hgravatar. reflexivity.
  - rewrite (lookup_union_r _ _ _ Hurl), Hu, Hurl. reflexivity.
Qed.

(** X7: no Gravatar request is sent when an image is at hand: with a non-empty
    [userImage] in the body the profile request is the only call; and so it
    is with no [userImage] and a truthy [profileUrl], which then serves as
    the [userImage] of the profile. *)
Theorem getProfileInfo_image_at_hand
    (gravatarConfig : option GravatarConfig) (response : AxiosResponse)
    (body : gmap string JsValue) :
  httpClient net (meRequest rt) = Resolved response →
  resp_status response = 200 →
  resp_data response = JObj body →
  ∃ profile,
    P.outcome (getProfileInfo rt net gravatarConfig) = Resolved profile
    ∧ (∀ image, body !! "userImage" = Some image → Js.isEmpty image = false →
         P.trace (getProfileInfo rt net gravatarConfig) = [HttpClientCall (meRequest rt)]
         ∧ profile !! "userImage" = Some image)
    ∧ (∀ url, body !! "userImage" = None → body !! "profileUrl" = Some url →
         Js.truthy url = true →
         P.trace (getProfileInfo rt net gravatarConfig) = [HttpClientCall (meRequest rt)]
         ∧ profile !! "userImage" = Some url).
Proof.
  intros Hnet Hstatus Hdata.
  destruct (getProfileInfo_object rt net gravatarConfig response body Hnet Hstatus Hdata)
    as (gravatar & profile & Hfetched & Hprofile & Hrun).
  destruct (profileResponse_object response gravatar body Hdata)
    as (members & Hmembers & _ & _ & _ & _ & _ & _ & Hi & _).
  rewrite Hmembers in Hprofile. injection Hprofile as <-.
  exists (body ∪ members). rewrite Hrun. split; [done|]. split.
  - intros image Himage Hfull. rewrite Himage.
    change (default JUndefined (Some image)) with image. rewrite Hfull.
    split; [reflexivity|]. by apply lookup_union_Some_l.
  - intros url Himage Hurl Htruthy. rewrite Himage, Hurl.
    change (default JUndefined (Some url)) with url.
    change (default JUndefined None) with JUndefined.
    rewrite Htruthy. split; [reflexivity|].
    rewrite (lookup_union_r _ _ _ Himage), Hi, Himage, Hurl.
    change (default JUndefined (Some url)) with url.
    unfold Js.or. cbn [Js.truthy default]. by rewrite Htruthy.
Qed.

(** X8: a [userImage] that is present but empty (the empty string, say) makes
    [getProfileInfo] send the Gravatar request and then drop its result: the
    body's own [userImage] is what the profile carries, whatever Gravatar
    answers. *)
Theorem getProfileInfo_empty_userImage_drops_gravatar
    (gravatarConfig : option GravatarConfig) (response : AxiosResponse)
    (body : gmap string JsValue) (image : JsValue) (address : string) :
  httpClient net (meRequest rt) = Resolved response →
  resp_status response = 200 →
  resp_data response = JObj body →
  body !! "userImage" = Some image →
  Js.isEmpty image = true →
  body !! "profileUrl" = None →
  gravatarAddress (JObj body) = Some (JStr address) →
  ∃ profile,
    P.outcome (getProfileInfo rt net gravatarConfig) = Resolved profile
    ∧ P.trace (getProfileInfo rt net gravatarConfig)
      = [HttpClientCall (meRequest rt);
         AxiosCall (gravatarRequest rt (JStr address) (gravatarConfig ≫= size)
                      (gravatarConfig ≫= defaultImage) (gravatarConfig ≫= fallback))]
    ∧ profile !! "userImage" = Some image.
Proof.
  intros Hnet Hstatus Hdata Himage Hempty Hurl Haddress.
  destruct (getProfileInfo_object rt net gravatarConfig response body Hnet Hstatus Hdata)
    as (gravatar & profile & Hfetched & Hprofile & Hrun).
  destruct (profileResponse_spread response gravatar body Hdata)
    as (members & Hmembers & _).
  rewrite Hmembers in Hprofile. injection Hprofile as <-.
  exists (body ∪ members). rewrite Hrun. split; [done|].
  rewrite Himage, Hurl.
  change (default JUndefined (Some image)) with image.
  change (default JUndefined None) with JUndefined.
  rewrite Hempty. cbn [Js.truthy negb andb].
  rewrite gravatarFallback_run, Haddress.
  split; [reflexivity|]. by apply lookup_union_Some_l.
Qed.

(** *** What the caller sees of a status other than 200 *)

(** X9: on a response whose status is not 200, the exception that reaches the
    caller of [getProfileInfo], [updateProfileInfo] or [getProfileSchemas]
    has the request-error constant of the operation for message, the
    status of the response for code, and the response, its request and its
    config for context: the status can be read off the exception, the
    invalid-response-code constant raised by the response handler cannot. *)
Theorem non200_status_reaches_caller
    (gravatarConfig : option GravatarConfig) (info : JsValue)
    (response : AxiosResponse) :
  resp_status response ≠ 200 →
  let surfaced message :=
    newException message JNull (JNum (resp_status response))
      (resp_request response) (Some response) (resp_config response) in
  (httpClient net (meRequest rt) = Resolved response →
   P.outcome (getProfileInfo rt net gravatarConfig)
   = Rejected (surfaced PROFILE_INFO_FETCH_REQUEST_ERROR))
  ∧ (httpClient net (updateRequest rt info) = Resolved response →
     P.outcome (updateProfileInfo rt net info)
     = Rejected (surfaced PROFILE_INFO_UPDATE_REQUEST_ERROR))
  ∧ (httpClient net (schemasRequest rt) = Resolved response →
     P.outcome (getProfileSchemas rt net)
     = Rejected (surfaced SCHEMA_FETCH_REQUEST_ERROR)).
Proof.
  intros Hstatus surfaced.
  assert (negb (resp_status response =? 200) = true) as Hneq.
  { apply negb_true_iff, Z.eqb_neq, Hstatus. }
  split; [|split]; intros Hnet.
  - rewrite getProfileInfo_run, Hnet. cbv zeta.
    by rewrite (getProfileInfo_then_not_200 _ _ Hstatus).
  - unfold updateProfileInfo. rewrite catch_wrap_outcome.
    unfold updateProfileInfo_chain. rewrite (chain_on_response net _ _ _ Hnet).
    unfold updateProfileInfo_then. by rewrite Hneq.
  - unfold getProfileSchemas. rewrite catch_wrap_outcome.
    unfold getProfileSchemas_chain. rewrite (chain_on_response net _ _ _ Hnet).
    unfold getProfileSchemas_then. by rewrite Hneq.
Qed.

(** *** [updateProfileInfo], [getProfileSchemas], [getGravatarImage] *)

(** X10: [updateProfileInfo] sends exactly one request, a [PATCH] that carries
    [info] to the endpoint [getProfileInfo] reads from, and it resolves with
    a value exactly when the HTTP layer answers with a response of status
    200 whose body is that value. *)
Theorem updateProfileInfo_one_patch (info : JsValue) :
  let call := updateProfileInfo rt net info in
  P.trace call = [HttpClientCall (updateRequest rt info)]
  ∧ rc_method (updateRequest rt info) = PATCH
  ∧ rc_data (updateRequest rt info) = Some info
  ∧ rc_url (updateRequest rt info) = rc_url (meRequest rt)
  ∧ ∀ data,
      P.outcome call = Resolved data
      ↔ ∃ response,
          httpClient net (updateRequest rt info) = Resolved response
          ∧ resp_status response = 200
          ∧ resp_data response = data.
Proof.
  cbv zeta. unfold updateProfileInfo, updateProfileInfo_chain, call_httpClient.
  destruct (httpClient net (updateRequest rt info)) as [response|error].
  - unfold updateProfileInfo_then. cbn [P.then_].
    destruct (Z.eqb_spec (resp_status response) 200) as [Hstatus|Hstatus]; cbn.
    + split; [done|]. do 3 (split; [done|]). intros data. split.
      * intros [= <-]. by exists response.
      * by intros (r & [= <-] & _ & <-).
    + split; [done|]. do 3 (split; [done|]). intros data. split; [done|].
      by intros (r & [= <-] & Heq & _).
  - cbn. split; [done|]. do 3 (split; [done|]). intros data. split; [done|].
    by intros (r & ? & _).
Qed.

(** X11: on a 200 response whose body is an array, [getProfileSchemas]
    resolves exactly when the array has a first element that is neither
    [null] nor [undefined]; what it resolves with is the [attributes] of
    that element, the other elements playing no part; it sends exactly one
    request. *)
Theorem getProfileSchemas_array (response : AxiosResponse) (items : list JsValue) :
  httpClient net (schemasRequest rt) = Resolved response →
  resp_status response = 200 →
  resp_data response = JArr items →
  let call := getProfileSchemas rt net in
  P.trace call = [HttpClientCall (schemasRequest rt)]
  ∧ ∀ attributes,
      P.outcome call = Resolved attributes
      ↔ ∃ first rest,
          items = first :: rest
          ∧ ¬ nullish first
          ∧ Js.get first "attributes" = Some attributes.
Proof.
  intros Hnet Hstatus Hdata. cbv zeta.
  assert (firstAttributes (JArr items)
          = match items with
            | [] => None
            | first :: _ => Js.get first "attributes"
            end) as Hfirst by (by destruct items).
  assert (getProfileSchemas rt net
          = ([HttpClientCall (schemasRequest rt)],
             match firstAttributes (JArr items) with
             | Some attributes => Resolved attributes
             | None => Rejected (wrap SCHEMA_FETCH_REQUEST_ERROR
                                   (TypeError (typeErrorStack rt)))
             end)) as Hrun.
  { unfold getProfileSchemas, getProfileSchemas_chain, call_httpClient.
    rewrite Hnet. cbn [P.then_]. unfold getProfileSchemas_then.
    rewrite Hstatus, Hdata. cbn [negb Z.eqb Pos.eqb].
    by destruct (firstAttributes _). }
  rewrite Hrun, Hfirst. cbn [P.trace P.outcome fst snd]. split; [done|].
  intros attributes. destruct items as [|first rest].
  - split; [done|]. by intros (f & r & ? & _).
  - destruct (nullish_dec first) as [Hnull|Hdefined].
    + rewrite (get_nullish first "attributes" Hnull).
      split; [done|]. intros (f & r & [= <- <-] & Hnot & _). by destruct Hnot.
    + destruct (get_defined first "attributes" Hdefined) as [found Hfound].
      rewrite Hfound. split.
      * intros [= <-]. by exists first, rest.
      * intros (f & r & [= <- <-] & _ & Hget). rewrite Hfound in Hget.
        by injection Hget as ->.
Qed.

(** X12: [getGravatarImage] sends exactly one request, a [GET] without
    headers or body for the URL built from its arguments, the fallback
    being "404" when none is passed; it resolves exactly when that request
    resolves, whatever the response holds, and always with that URL. *)
Theorem getGravatarImage_one_get (email : JsValue) (size : option Z)
    (defaultImage fallback : option string) :
  let requestConfig :=
    {| rc_data := None;
       rc_headers := None;
       rc_method := GET;
       rc_url := buildGravatarURL rt email size defaultImage (default "404" fallback) |} in
  let call := getGravatarImage rt net email size defaultImage fallback in
  P.trace call = [AxiosCall requestConfig]
  ∧ ∀ url,
      P.outcome call = Resolved url
      ↔ url = rc_url requestConfig
        ∧ ∃ answer, axios_request net requestConfig = Resolved answer.
Proof.
  cbv zeta. unfold getGravatarImage, call_axios, gravatarRequest.
  destruct (axios_request net _) as [answer|error]; cbn.
  - split; [done|]. intros url. split.
    + intros [= <-]. split; [done|]. by exists answer.
    + by intros [-> _].
  - split; [done|]. intros url. split; [done|]. by intros [_ [answer ?]].
Qed.

End ClientFurther.

(** ** E-mail template list page *)

Module EmailTemplatesFurther.

Import EmailTemplates Pagination.

Lemma slice_length {A} (xs : list A) (start end_ : Z) :
  Z.of_nat (length (slice xs start end_))
  = Z.max 0 (relativeIndex (Z.of_nat (length xs)) end_
             - relativeIndex (Z.of_nat (length xs)) start).
Proof.
  unfold slice. rewrite length_take, length_drop.
  unfold relativeIndex.
  destruct (start <? 0) eqn:E1; destruct (end_ <? 0) eqn:E2; lia.
Qed.

(** X13: a page never holds more items than the limit, wherever it starts; and
    from an offset inside or past the list it holds the limit, or what is
    left of the list after the offset when that is less. *)
Theorem page_length {EmailTemplate : Type} (render st : State EmailTemplate)
    (offset limit : Z) :
  0 <= limit →
  let page :=
    paginatedemailTemplates _ (setEmailTemplateTypePage _ render offset limit st) in
  let len := Z.of_nat (length (emailTemplates _ render)) in
  Z.of_nat (length page) <= limit
  ∧ (0 <= offset → Z.of_nat (length page) = Z.max 0 (Z.min limit (len - offset))).
Proof.
  intros Hlimit. cbv zeta. cbn [setEmailTemplateTypePage setPaginatedemailTemplates
                               paginatedemailTemplates].
  rewrite slice_length. unfold relativeIndex.
  destruct (offset <? 0) eqn:E1; destruct (limit + offset <? 0) eqn:E2; lia.
Qed.

Lemma slice_nonneg {A} (xs : list A) (a b : Z) :
  0 <= a → 0 <= b →
  slice xs a b = take (Z.to_nat b - Z.to_nat a) (drop (Z.to_nat a) xs).
Proof.
  intros Ha Hb. unfold slice, relativeIndex.
  destruct (Z.ltb_spec a 0) as [?|_]; [lia|].
  destruct (Z.ltb_spec b 0) as [?|_]; [lia|].
  destruct (Z.le_gt_cases (Z.of_nat (length xs)) a) as [Hout|Hin].
  - rewrite !(drop_ge xs) by lia. by rewrite !take_nil.
  - replace (Z.to_nat (Z.min a (Z.of_nat (length xs)))) with (Z.to_nat a) by lia.
    destruct (Z.le_gt_cases b (Z.of_nat (length xs))) as [Hb'|Hb'].
    + f_equal. lia.
    + rewrite !take_ge; [done| |]; rewrite length_drop; lia.
Qed.

Lemma slice_app {A} (xs : list A) (a b c : Z) :
  0 <= a <= b → b <= c → slice xs a b ++ slice xs b c = slice xs a c.
Proof.
  intros Hab Hbc. rewrite !slice_nonneg by lia.
  replace (drop (Z.to_nat b) xs)
    with (drop (Z.to_nat b - Z.to_nat a) (drop (Z.to_nat a) xs))
    by (rewrite drop_drop; f_equal; lia).
  rewrite take_take_drop. f_equal. lia.
Qed.

Lemma pageShown_slice {T} (render : State T) (activePage : Z) :
  pageShown render activePage
  = slice (emailTemplates _ render) ((activePage - 1) * listItemLimit _ render)
      (listItemLimit _ render + (activePage - 1) * listItemLimit _ render).
Proof. reflexivity. Qed.

Lemma pages_concat {T} (render : State T) (m : nat) :
  0 < listItemLimit _ render →
  concat (map (fun p => pageShown render (Z.of_nat p)) (seq 1 m))
  = slice (emailTemplates _ render) 0 (Z.of_nat m * listItemLimit _ render).
Proof.
  intros Hlimit. induction m as [|m IH].
  - cbn. rewrite slice_nonneg by lia. reflexivity.
  - rewrite seq_S, map_app, concat_app, IH. cbn [map concat].
    rewrite app_nil_r, pageShown_slice.
    replace ((Z.of_nat (1 + m) - 1) * listItemLimit T render)
      with (Z.of_nat m * listItemLimit T render) by lia.
    rewrite slice_app by nia. f_equal. lia.
Qed.

Lemma totalPages_spec {T} (render : State T) (n : Z) :
  0 < listItemLimit _ render →
  totalPages render = Some n →
  let len := Z.of_nat (length (emailTemplates _ render)) in
  0 <= n ∧ len <= n * listItemLimit _ render < len + listItemLimit _ render.
Proof.
  intros Hlimit. unfold totalPages.
  destruct (Z.eqb_spec (listItemLimit T render) 0) as [?|_]; [lia|].
  intros [= <-]. cbv zeta.
  set (len := Z.of_nat (length (emailTemplates T render))).
  pose proof (Z.div_mod (- len) (listItemLimit T render) ltac:(lia)) as Hdiv.
  pose proof (Z.mod_pos_bound (- len) (listItemLimit T render) Hlimit) as Hmod.
  assert (0 <= len) by (subst len; lia).
  nia.
Qed.

(** X14: with a positive page size, the pages 1 to [totalPages] put one after
    the other are the template list: every template is on one page, in
    order, and none is shown twice. *)
Theorem pages_cover_the_list {EmailTemplate : Type} (render : State EmailTemplate)
    (n : Z) :
  0 < listItemLimit _ render →
  totalPages render = Some n →
  concat (map (fun p => pageShown render (Z.of_nat p)) (seq 1 (Z.to_nat n)))
  = emailTemplates _ render.
Proof.
  intros Hlimit Hpages.
  destruct (totalPages_spec render n Hlimit Hpages) as [Hn [Hcover _]].
  rewrite (pages_concat render _ Hlimit), slice_nonneg by lia.
  rewrite drop_0. apply take_ge. nia.
Qed.

(** X15: with a positive page size, the page shown for a page number from 0
    on holds a template exactly when the number lies between 1 and
    [totalPages]: page 0 and the pages past the last one are empty, and no
    page up to the last one is. *)
Theorem page_nonempty_iff {EmailTemplate : Type} (render : State EmailTemplate)
    (n activePage : Z) :
  0 < listItemLimit _ render →
  totalPages render = Some n →
  0 <= activePage →
  pageShown render activePage ≠ [] ↔ 1 <= activePage <= n.
Proof.
  intros Hlimit Hpages Hpage.
  destruct (totalPages_spec render n Hlimit Hpages) as [Hn [Hcover Hlast]].
  cbv zeta in Hcover, Hlast.
  assert (pageShown render activePage ≠ []
          ↔ 0 < Z.of_nat (length (pageShown render activePage))) as ->.
  { destruct (pageShown render activePage); cbn; split; (done || lia). }
  rewrite pageShown_slice, slice_length. unfold relativeIndex.
  set (len := Z.of_nat (length (emailTemplates EmailTemplate render))) in *.
  set (limit := listItemLimit EmailTemplate render) in *.
  assert (0 <= len) by (subst len; lia).
  destruct (Z.ltb_spec ((activePage - 1) * limit) 0);
    destruct (Z.ltb_spec (limit + (activePage - 1) * limit) 0); nia.
Qed.

(** X16: changing the page size does not go back to the first page: the offset
    stays, and the item at the offset, when there is one, is still the first
    item shown. *)
Theorem items_per_page_change_keeps_offset {EmailTemplate : Type}
    (st : State EmailTemplate) (value : Z) (item : EmailTemplate) :
  0 < value →
  0 <= listOffset _ st →
  emailTemplates _ st !! Z.to_nat (listOffset _ st) = Some item →
  let st' := handleItemsPerPageDropdownChange _ st value st in
  listOffset _ st' = listOffset _ st
  ∧ head (paginatedemailTemplates _ st') = Some item.
Proof.
  intros Hvalue Hoffset Hitem. cbv zeta. split; [reflexivity|].
  cbn [handleItemsPerPageDropdownChange setEmailTemplateTypePage
         setPaginatedemailTemplates paginatedemailTemplates].
  rewrite slice_nonneg by lia.
  rewrite head_lookup, lookup_take_lt by lia.
  rewrite lookup_drop. by replace (Z.to_nat (listOffset _ st) + 0)%nat
    with (Z.to_nat (listOffset _ st)) by lia.
Qed.

(** X17: the page set by the response handler of the fetch is cut from the
    template list of the render that sent the request, not from the list
    just received: the received list is stored, and after the request of
    the first render, whose list is empty, the visible page is empty. *)
Theorem onTemplateResponse_page_from_render {EmailTemplate : Type}
    (render st : State EmailTemplate) (data : EmailTemplateDetails EmailTemplate)
    (template : EmailTemplate) (others : list EmailTemplate) :
  templates _ data = Some (template :: others) →
  let st' := onTemplateResponse _ render 200 data st in
  emailTemplates _ st' = template :: others
  ∧ emailTemplateTypeDetails _ st' = Some data
  ∧ paginatedemailTemplates _ st'
    = slice (emailTemplates _ render) (listOffset _ render)
        (listItemLimit _ render + listOffset _ render)
  ∧ (emailTemplates _ render = [] → paginatedemailTemplates _ st' = []).
Proof.
  intros Htemplates. cbv zeta. unfold onTemplateResponse.
  cbn [Z.eqb Pos.eqb]. rewrite Htemplates.
  split; [reflexivity|]. split; [reflexivity|]. split; [reflexivity|].
  intros Hempty. cbn. rewrite Hempty. unfold slice. by rewrite drop_nil, take_nil.
Qed.

(** X18: the response handler of the fetch leaves the template list and the
    visible page alone unless the answer has status 200 and a template
    array that is not empty: a status other than 200 leaves the whole state
    as it is, and a 200 response with no template array, or an empty one,
    stores the details and leaves the template list, the visible page, the
    offset and the limit as they are. *)
Theorem onTemplateResponse_keeps_list {EmailTemplate : Type}
    (render st : State EmailTemplate) (status : Z)
    (data : EmailTemplateDetails EmailTemplate) :
  (status ≠ 200 → onTemplateResponse _ render status data st = st)
  ∧ (templates _ data = None ∨ templates _ data = Some [] →
     let st' := onTemplateResponse _ render 200 data st in
     emailTemplateTypeDetails _ st' = Some data
     ∧ emailTemplates _ st' = emailTemplates _ st
     ∧ paginatedemailTemplates _ st' = paginatedemailTemplates _ st
     ∧ listOffset _ st' = listOffset _ st
     ∧ listItemLimit _ st' = listItemLimit _ st).
Proof.
  unfold onTemplateResponse. split.
  - intros Hstatus. by destruct (Z.eqb_spec status 200).
  - cbn [Z.eqb Pos.eqb]. by intros [-> | ->].
Qed.

(** *** The template type id *)

Lemma append_String (c : ascii) (s rest : string) :
  String c s +:+ rest = String c (s +:+ rest).
Proof. reflexivity. Qed.

Lemma append_empty_l (s : string) : "" +:+ s = s.
Proof. reflexivity. Qed.

Lemma append_empty_r (s : string) : s +:+ "" = s.
Proof. induction s as [|c s IH]; [done|]. by rewrite append_String, IH. Qed.

Lemma append_String_r (s rest : string) (c : ascii) :
  (s +:+ String c "") +:+ rest = s +:+ String c rest.
Proof.
  induction s as [|d s IH].
  - by rewrite !append_empty_l, append_String, append_empty_l.
  - by rewrite !append_String, IH.
Qed.

Lemma hasSlash_snoc (s : string) (c : ascii) :
  hasSlash (s +:+ String c "") = hasSlash s || Ascii.eqb c "/"%char.
Proof.
  induction s as [|d s IH].
  - rewrite append_empty_l. cbn [hasSlash]. by rewrite orb_false_r.
  - rewrite append_String. cbn [hasSlash]. by rewrite IH, orb_assoc.
Qed.

Lemma lastSegmentFrom_no_slash (path : string) : ∀ current,
  hasSlash path = false → lastSegmentFrom current path = current +:+ path.
Proof.
  induction path as [|c rest IH]; intros current; cbn [hasSlash lastSegmentFrom].
  - intros _. by rewrite append_empty_r.
  - intros [Hc Hrest]%orb_false_iff. rewrite Hc, (IH _ Hrest).
    apply append_String_r.
Qed.

Lemma lastSegmentFrom_after_slash (prefix segment : string) : ∀ current,
  lastSegmentFrom current (prefix +:+ String "/" segment)
  = lastSegmentFrom "" segment.
Proof.
  induction prefix as [|c rest IH]; intros current.
  - by rewrite append_empty_l.
  - rewrite append_String. cbn [lastSegmentFrom].
    destruct (Ascii.eqb c "/"); apply IH.
Qed.

Lemma lastSegmentFrom_hasSlash (path : string) : ∀ current,
  hasSlash current = false → hasSlash (lastSegmentFrom current path) = false.
Proof.
  induction path as [|c rest IH]; intros current Hcurrent; cbn [lastSegmentFrom];
    [done|].
  destruct (Ascii.eqb c "/") eqn:Hc; apply IH; [done|].
  by rewrite hasSlash_snoc, Hcurrent, Hc.
Qed.

(** X19: the template type id taken from the path is the text after its last
    slash: it holds no slash itself, it is the segment that follows the
    last slash, and a path without a slash is its own id. *)
Theorem lastSegment_after_last_slash :
  (∀ path, hasSlash (lastSegment path) = false)
  ∧ (∀ prefix segment, hasSlash segment = false →
       lastSegment (prefix +:+ "/" +:+ segment) = segment)
  ∧ (∀ path, hasSlash path = false → lastSegment path = path).
Proof.
  unfold lastSegment. split; [|split].
  - intros path. by apply lastSegmentFrom_hasSlash.
  - intros prefix segment Hsegment.
    change ("/" +:+ segment) with (String "/" segment).
    rewrite lastSegmentFrom_after_slash, lastSegmentFrom_no_slash by done.
    apply append_empty_l.
  - intros path Hpath. rewrite lastSegmentFrom_no_slash by done.
    apply append_empty_l.
Qed.

End EmailTemplatesFurther.

(** ** Application feature configuration *)

(** The tab of the strong authentication flow has index 3 exactly for
    the applications built on the custom application template, and index 4
    for every other template; the client id and the tenant domain play no
    part. *)
Theorem getStrongAuthenticationFlowTabIndex_cases
    (clientId tenantDomain templateId customApplicationTemplateId : string) :
  let index :=
    ApplicationConfig.getStrongAuthenticationFlowTabIndex clientId tenantDomain
      templateId customApplicationTemplateId in
  (index = 3 ↔ templateId = customApplicationTemplateId)
  ∧ (index = 4 ↔ templateId ≠ customApplicationTemplateId).
Proof.
  cbv zeta. unfold ApplicationConfig.getStrongAuthenticationFlowTabIndex.
  destruct (String.eqb_spec templateId customApplicationTemplateId); split; split;
    (done || lia).
Qed.

(** ** Sample runs *)

Section FurtherSampleRuns.

Import Sample.

Lemma getProfileInfo_body_members_win_witness :
  let body : gmap string JsValue :=
    <["emails" := JNull]> {[ "userName" := JStr "alice" ]} in
  let response := respond 200 (JObj body) in
  let net := network (Resolved response) (Resolved response) (Resolved JNull) in
  ∃ profile,
    P.outcome (getProfileInfo rt net None) = Resolved profile
    ∧ profile !! "emails" = Some JNull
    ∧ profile !! "userName" = Some (JStr "alice").
Proof.
  intros body response net.
  destruct (getProfileInfo_body_members_win rt net None response body
              eq_refl eq_refl eq_refl) as (profile & Hout & Hwin).
  exists profile. split; [exact Hout|]. split; apply Hwin; reflexivity.
Defined.

Lemma getProfileInfo_profile_members_witness :
  let body : gmap string JsValue := {[ "id" := JStr "7f3a" ]} in
  let response := respond 200 (JObj body) in
  let net := network (Resolved response) (Resolved response) (Resolved JNull) in
  ∃ profile,
    P.outcome (getProfileInfo rt net None) = Resolved profile
    ∧ dom profile = dom body ∪ profileMembers.
Proof.
  intros body response net.
  exact (getProfileInfo_profile_members rt net None response body
           eq_refl eq_refl eq_refl).
Defined.

Lemma getProfileInfo_organisation_from_extension_witness :
  let extension : gmap string JsValue := {[ "organization" := JStr "ACME" ]} in
  let body : gmap string JsValue := {[ orgKey := JObj extension ]} in
  let response := respond 200 (JObj body) in
  let net := network (Resolved response) (Resolved response) (Resolved JNull) in
  ∃ profile,
    P.outcome (getProfileInfo rt net None) = Resolved profile
    ∧ profile !! "organisation" = Some (JStr "ACME").
Proof.
  intros extension body response net.
  exact (getProfileInfo_organisation_from_extension rt net None response body extension
           eq_refl eq_refl eq_refl eq_refl eq_refl).
Defined.

Lemma getProfileInfo_userImage_from_gravatar_witness :
  let body : gmap string JsValue :=
    <["emails" := JArr [address]]> {[ "userName" := JStr "alice" ]} in
  let response := respond 200 (JObj body) in
  let image := respond 200 (JStr "PNG") in
  let net := network (Resolved response) (Resolved image) (Resolved JNull) in
  ∃ profile,
    P.outcome (getProfileInfo rt net None) = Resolved profile
    ∧ profile !! "userImage" = Some (JStr gravatarURL)
    ∧ profile !! "profileUrl" = Some (JStr "").
Proof.
  intros body response image net.
  exact (getProfileInfo_userImage_from_gravatar rt net None response image body
           "alice@example.com" eq_refl eq_refl eq_refl eq_refl eq_refl eq_refl eq_refl).
Defined.

Lemma getProfileInfo_image_at_hand_witness :
  let picture := JStr "https://example.com/alice.png" in
  let body : gmap string JsValue := {[ "profileUrl" := picture ]} in
  let response := respond 200 (JObj body) in
  let net := network (Resolved response) (Resolved response) (Resolved JNull) in
  ∃ profile,
    P.outcome (getProfileInfo rt net None) = Resolved profile
    ∧ P.trace (getProfileInfo rt net None) = [HttpClientCall (meRequest rt)]
    ∧ profile !! "userImage" = Some picture.
Proof.
  intros picture body response net.
  destruct (getProfileInfo_image_at_hand rt net None response body
              eq_refl eq_refl eq_refl) as (profile & Hout & _ & Hurl).
  exists profile. split; [exact Hout|].
  apply (Hurl picture); reflexivity.
Defined.

Lemma getProfileInfo_empty_userImage_drops_gravatar_witness :
  let body : gmap string JsValue :=
    <["userImage" := JStr ""]> {[ "emails" := JArr [address] ]} in
  let response := respond 200 (JObj body) in
  let image := respond 200 (JStr "PNG") in
  let net := network (Resolved response) (Resolved image) (Resolved JNull) in
  ∃ profile,
    P.outcome (getProfileInfo rt net None) = Resolved profile
    ∧ P.trace (getProfileInfo rt net None)
      = [HttpClientCall (meRequest rt);
         AxiosCall (gravatarRequest rt address None None None)]
    ∧ profile !! "userImage" = Some (JStr "").
Proof.
  intros body response image net.
  exact (getProfileInfo_empty_userImage_drops_gravatar rt net None response body
           (JStr "") "alice@example.com"
           eq_refl eq_refl eq_refl eq_refl eq_refl eq_refl eq_refl).
Defined.

Lemma non200_status_reaches_caller_witness :
  let response := respond 404 (JObj ∅) in
  let net := network (Resolved response) (Resolved response) (Resolved JNull) in
  P.outcome (updateProfileInfo rt net (JObj ∅))
  = Rejected (newException PROFILE_INFO_UPDATE_REQUEST_ERROR JNull (JNum 404)
                (JObj ∅) (Some response) (JObj ∅))
  ∧ P.outcome (getProfileSchemas rt net)
    = Rejected (newException SCHEMA_FETCH_REQUEST_ERROR JNull (JNum 404)
                  (JObj ∅) (Some response) (JObj ∅)).
Proof.
  intros response net.
  assert (resp_status response ≠ 200) as Hstatus by (cbn; lia).
  destruct (non200_status_reaches_caller rt net None (JObj ∅) response Hstatus)
    as (_ & Hupdate & Hschemas).
  split; [apply Hupdate | apply Hschemas]; reflexivity.
Defined.

Lemma getProfileSchemas_array_witness :
  let items := [JStr "urn:ietf:params:scim:schemas:core:2.0:User"; JNull] in
  let response := respond 200 (JArr items) in
  let net := network (Resolved response) (Resolved response) (Resolved JNull) in
  P.trace (getProfileSchemas rt net) = [HttpClientCall (schemasRequest rt)]
  ∧ P.outcome (getProfileSchemas rt net) = Resolved JUndefined.
Proof.
  intros items response net.
  destruct (getProfileSchemas_array rt net response items eq_refl eq_refl eq_refl)
    as [Htrace Hout].
  split; [exact Htrace|]. apply Hout.
  exists (JStr "urn:ietf:params:scim:schemas:core:2.0:User"), [JNull].
  split; [reflexivity|]. split; [|reflexivity].
  intros [H|H]; discriminate H.
Defined.

Import EmailTemplates Pagination SamplePage EmailTemplatesFurther.

Lemma page_length_witness :
  Z.of_nat (length (paginatedemailTemplates _
                      (setEmailTemplateTypePage _ listed 20 10 listed))) = 5.
Proof.
  destruct (page_length listed listed 20 10 ltac:(lia)) as [_ Hexact].
  rewrite Hexact by lia. reflexivity.
Defined.

Lemma pages_cover_the_list_witness :
  totalPages listed = Some 3
  ∧ concat (map (fun p => pageShown listed (Z.of_nat p)) [1; 2; 3]%nat) = seq 0 25.
Proof.
  split; [reflexivity|].
  exact (pages_cover_the_list listed 3 ltac:(cbn; lia) eq_refl).
Defined.

Lemma page_nonempty_iff_witness :
  pageShown listed 3 ≠ [] ∧ ¬ pageShown listed 4 ≠ [].
Proof.
  split.
  - apply (page_nonempty_iff listed 3 3); [cbn; lia | reflexivity | lia | lia].
  - intros H. apply (page_nonempty_iff listed 3 4) in H; [lia | cbn; lia | reflexivity | lia].
Defined.

Lemma items_per_page_change_keeps_offset_witness :
  let st' := handleItemsPerPageDropdownChange _ listed 50 listed in
  listOffset _ st' = 20 ∧ head (paginatedemailTemplates _ st') = Some 20%nat.
Proof.
  exact (items_per_page_change_keeps_offset listed 50 20%nat
           ltac:(lia) ltac:(cbn; lia) eq_refl).
Defined.

Lemma onTemplateResponse_page_from_render_witness :
  let st' := onTemplateResponse _ (initialState nat) 200 received (initialState nat) in
  emailTemplates _ st' = [0; 1; 2]%nat ∧ paginatedemailTemplates _ st' = [].
Proof.
  destruct (onTemplateResponse_page_from_render (initialState nat) (initialState nat)
              received 0%nat [1; 2]%nat eq_refl) as (Hlist & _ & _ & Hempty).
  split; [exact Hlist | apply Hempty; reflexivity].
Defined.

End FurtherSampleRuns.
